(** * SmartRx: response normalisation and rule-based validation

    A shallow embedding of the two handlers of [src/app.py] that carry logic:

    - [analyze_prescription], from the point where the extraction service has
      answered (lines 107-147): fence stripping, [json.loads], the metadata
      and accuracy fields, and the two [except] handlers;
    - [validate_prescription] (lines 149-192): the rule engine over the
      posted JSON body.

    Python values are untyped, so the model keeps them untyped: every
    operation that Python would reject raises the exception Python raises.
    Text is modelled by [string], one [ascii] per code point below 256.
    Two functions of Python itself stay parameters of the model:
    [json.loads] and the formatting [str(x)] of a value that is not a
    string; the clock's reading is an argument. *)

From Stdlib Require Import ZArith Bool List String Ascii Lia SpecFloat DecimalString.
Import ListNotations.
Set Warnings "-register-all".
Local Open Scope list_scope.
Local Open Scope string_scope.

(** ** Python values as [json.loads] and [request.json] produce them *)

(** A [dict] keeps its keys in insertion order, as Python's does. *)
Inductive json : Type :=
| JNull
| JBool (b : bool)
| JInt (z : Z)
| JFloat (f : spec_float)
| JStr (s : string)
| JList (l : list json)
| JDict (d : list (string * json)).

Definition dict : Type := list (string * json).

(** The exceptions the two handlers can meet. *)
Inductive exn : Type :=
| TypeError
| AttributeError
| KeyError
| ValueError
| RecursionError.

Inductive py_result (A : Type) : Type :=
| Ok (a : A)
| Raise (e : exn).
Arguments Ok {A} a.
Arguments Raise {A} e.

Definition bind {A B : Type} (c : py_result A) (k : A -> py_result B) : py_result B :=
  match c with
  | Ok a => k a
  | Raise e => Raise e
  end.

Notation "x <- c ;; k" := (bind c (fun x => k))
  (at level 61, c at next level, right associativity).

(** ** Binary64 numbers

    Python's [float] is IEEE 754 binary64; [spec_float] with precision 53 and
    maximal exponent 1024 is its specification in the Standard Library. *)
Module F64.

Definition prec : Z := 53.
Definition emax : Z := 1024.

Definition mul : spec_float -> spec_float -> spec_float := SFmul prec emax.
Definition div : spec_float -> spec_float -> spec_float := SFdiv prec emax.
Definition ltb : spec_float -> spec_float -> bool := SFltb.
Definition leb : spec_float -> spec_float -> bool := SFleb.

(** [float(z)] for an integer that is exactly representable. *)
Definition of_Z (z : Z) : spec_float := binary_normalize prec emax z 0 false.

(** The literals of the source: [0.0], [0.85], and [100] once Python has
    converted it to a float to multiply. *)
Definition zero : spec_float := S754_zero false.
Definition one : spec_float := S754_finite false 4503599627370496 (-52).
Definition lit_0_85 : spec_float := S754_finite false 7656119366529843 (-53).
Definition hundred : spec_float := S754_finite false 7036874417766400 (-46).

Definition is_zero (f : spec_float) : bool :=
  match f with
  | S754_zero _ => true
  | _ => false
  end.

(** Python compares an [int] with a [float] exactly, without converting. *)
Definition Z_ltb (z : Z) (f : spec_float) : bool :=
  match f with
  | S754_nan => false
  | S754_infinity s => negb s
  | S754_zero _ => (z <? 0)%Z
  | S754_finite s m e =>
      let v := if s then Z.neg m else Z.pos m in
      if (0 <=? e)%Z then (z <? v * 2 ^ e)%Z else (z * 2 ^ (- e) <? v)%Z
  end.

Definition Z_geb (z : Z) (f : spec_float) : bool :=
  match f with
  | S754_nan => false
  | S754_infinity s => s
  | S754_zero _ => (0 <=? z)%Z
  | S754_finite s m e =>
      let v := if s then Z.neg m else Z.pos m in
      if (0 <=? e)%Z then (v * 2 ^ e <=? z)%Z else (v <=? z * 2 ^ (- e))%Z
  end.

(** Nearest integer to [n / d], ties to even ([0 <= n], [0 < d]). *)
Definition div_half_even (n d : Z) : Z :=
  let q := (n / d)%Z in
  let r := (n mod d)%Z in
  match (2 * r ?= d)%Z with
  | Lt => q
  | Gt => (q + 1)%Z
  | Eq => if Z.even q then q else (q + 1)%Z
  end.

(** [round(x, 2)] on a float: CPython rounds the exact value of [x] to two
    decimals, ties to even, and converts the decimal back to the nearest
    float; infinities and NaN round to themselves. *)
Definition round2 (f : spec_float) : spec_float :=
  match f with
  | S754_finite s m e =>
      let hundredths :=
        if (0 <=? e)%Z then (Z.pos m * 100 * 2 ^ e)%Z
        else div_half_even (Z.pos m * 100) (2 ^ (- e)) in
      match hundredths with
      | Z.pos n => div (S754_finite s n 0) (S754_finite false 100 0)
      | _ => S754_zero s
      end
  | _ => f
  end.

End F64.

(** ** Python's operations on values *)

(** Truth value of an object, as [not x] and [if x] use it. *)
Definition truthy (v : json) : bool :=
  match v with
  | JNull => false
  | JBool b => b
  | JInt z => negb (z =? 0)%Z
  | JFloat f => negb (F64.is_zero f)
  | JStr s => negb (s =? "")
  | JList l => match l with [] => false | _ => true end
  | JDict d => match d with [] => false | _ => true end
  end.

Fixpoint dict_get (k : string) (d : dict) : option json :=
  match d with
  | [] => None
  | (k', v) :: d' => if k =? k' then Some v else dict_get k d'
  end.

(** [d[k] = v]: an existing key keeps its place, a new one goes last. *)
Fixpoint dict_set (k : string) (v : json) (d : dict) : dict :=
  match d with
  | [] => [(k, v)]
  | (k', v') :: d' => if k =? k' then (k', v) :: d' else (k', v') :: dict_set k v d'
  end.

(** [d.get(k)] and [d.get(k, default)]. *)
Definition py_get (k : string) (d : dict) : json :=
  match dict_get k d with
  | Some v => v
  | None => JNull
  end.

Definition py_get_default (k : string) (default : json) (d : dict) : json :=
  match dict_get k d with
  | Some v => v
  | None => default
  end.

(** [d[k]]. *)
Definition py_getitem (k : string) (d : dict) : py_result json :=
  match dict_get k d with
  | Some v => Ok v
  | None => Raise KeyError
  end.

(** [x.get]: only a dict has the attribute. *)
Definition as_dict (v : json) : py_result dict :=
  match v with
  | JDict d => Ok d
  | _ => Raise AttributeError
  end.

(** [len(x)]. *)
Definition py_len (v : json) : py_result nat :=
  match v with
  | JStr s => Ok (String.length s)
  | JList l => Ok (List.length l)
  | JDict d => Ok (List.length d)
  | _ => Raise TypeError
  end.

(** The items a [for] loop over [x] visits: the elements of a list, the
    characters of a string, the keys of a dict. *)
Definition py_iter (v : json) : py_result (list json) :=
  match v with
  | JList l => Ok l
  | JStr s => Ok (map (fun c => JStr (String c "")) (list_ascii_of_string s))
  | JDict d => Ok (map (fun kv => JStr (fst kv)) d)
  | _ => Raise TypeError
  end.

(** [x < f] for a float [f]. *)
Definition py_lt_float (v : json) (f : spec_float) : py_result bool :=
  match v with
  | JInt z => Ok (F64.Z_ltb z f)
  | JBool b => Ok (F64.Z_ltb (Z.b2z b) f)
  | JFloat x => Ok (F64.ltb x f)
  | _ => Raise TypeError
  end.

Fixpoint repeat_string (n : nat) (s : string) : string :=
  match n with
  | O => ""
  | S n' => s ++ repeat_string n' s
  end.

(** [x * 100]. *)
Definition py_mul_100 (v : json) : py_result json :=
  match v with
  | JInt z => Ok (JInt (z * 100))
  | JBool b => Ok (JInt (Z.b2z b * 100))
  | JFloat f => Ok (JFloat (F64.mul f F64.hundred))
  | JStr s => Ok (JStr (repeat_string 100 s))
  | JList l => Ok (JList (List.concat (List.repeat l 100)))
  | JNull | JDict _ => Raise TypeError
  end.

(** [round(x, 2)]: an int is returned as it is. *)
Definition py_round2 (v : json) : py_result json :=
  match v with
  | JInt z => Ok (JInt z)
  | JBool b => Ok (JInt (Z.b2z b))
  | JFloat f => Ok (JFloat (F64.round2 f))
  | _ => Raise TypeError
  end.

(** ** The rule engine: [validate_prescription] *)

(** The [validation_results] dict of the handler; its three keys are fixed. *)
Record validation_results : Type := {
  is_valid : bool;
  warnings : list string;
  errors : list string
}.

(** [validation_results['warnings'].append(w)] *)
Definition append_warning (w : string) (vr : validation_results) : validation_results :=
  {| is_valid := is_valid vr; warnings := (warnings vr ++ [w])%list; errors := errors vr |}.

(** [validation_results['errors'].append(e)] *)
Definition append_error (e : string) (vr : validation_results) : validation_results :=
  {| is_valid := is_valid vr; warnings := warnings vr; errors := (errors vr ++ [e])%list |}.

(** [validation_results['is_valid'] = False] *)
Definition set_invalid (vr : validation_results) : validation_results :=
  {| is_valid := false; warnings := warnings vr; errors := errors vr |}.

Definition initial_results : validation_results :=
  {| is_valid := true; warnings := []; errors := [] |}.

(** The flag and the error list agree. *)
Definition consistent (vr : validation_results) : Prop :=
  is_valid vr = true <-> errors vr = [].

(** What the handler answers: [jsonify(validation_results), 200], or the
    500 of its [except Exception]. *)
Inductive validate_response : Type :=
| Validated (vr : validation_results)
| ValidationFailed (e : exn).

Section Validation.

(** [str(x)] on a value that is not a string (Python's own formatting of
    [None], numbers, lists and dicts inside an f-string). *)
Variable py_str : json -> string.

(** [f"{x}"] *)
Definition py_format (v : json) : string :=
  match v with
  | JStr s => s
  | _ => py_str v
  end.

(** Lines 162-163 and 165-166. *)
Definition check_name (key message : string) (data : dict)
    (vr : validation_results) : validation_results :=
  if negb (truthy (py_get key data)) then append_warning message vr else vr.

(** Lines 168-170: [not data.get('medications') or len(data['medications']) == 0]. *)
Definition medications_missing (data : dict) : py_result bool :=
  if negb (truthy (py_get "medications" data)) then Ok true
  else
    meds <- py_getitem "medications" data ;;
    n <- py_len meds ;;
    Ok (Nat.eqb n 0).

Definition check_medications_present (data : dict)
    (vr : validation_results) : py_result validation_results :=
  missing <- medications_missing data ;;
  Ok (if missing then set_invalid (append_error "No medications found" vr) else vr).

(** Lines 174-179: the body of the loop, for one [med]. *)
Definition check_medication (med : json)
    (vr : validation_results) : py_result validation_results :=
  m <- as_dict med ;;
  let vr :=
    if negb (truthy (py_get "name" m))
    then set_invalid (append_error "Medication name missing" vr)
    else vr in
  let vr :=
    if negb (truthy (py_get "dosage" m))
    then append_warning
           ("Dosage missing for "
              ++ py_format (py_get_default "name" (JStr "unknown medication") m)) vr
    else vr in
  Ok vr.

(** Line 173: the loop, in order, stopping at the first exception. *)
Fixpoint check_medications (meds : list json)
    (vr : validation_results) : py_result validation_results :=
  match meds with
  | [] => Ok vr
  | med :: rest =>
      vr' <- check_medication med vr ;;
      check_medications rest vr'
  end.

(** Lines 182-183. *)
Definition check_confidence (data : dict)
    (vr : validation_results) : py_result validation_results :=
  low <- py_lt_float (py_get_default "confidence_score" (JInt 0) data) F64.lit_0_85 ;;
  Ok (if low
      then append_warning "Low confidence score - manual review recommended" vr
      else vr).

(** The [try] block, lines 153-185. *)
Definition validation_rules (body : json) : py_result validation_results :=
  data <- as_dict body ;;
  let vr := check_name "patient_name" "Patient name is missing" data initial_results in
  let vr := check_name "doctor_name" "Doctor name is missing" data vr in
  vr <- check_medications_present data vr ;;
  meds <- py_iter (py_get_default "medications" (JList []) data) ;;
  vr <- check_medications meds vr ;;
  check_confidence data vr.

Definition validate_prescription (body : json) : validate_response :=
  match validation_rules body with
  | Ok vr => Validated vr
  | Raise e => ValidationFailed e
  end.

End Validation.

(** ** Text operations of the normaliser *)

(** [str.isspace] on the code points below 256: tab to carriage return, the
    four separators 28-31, space, NEL and the no-break space. *)
Definition is_space (c : ascii) : bool :=
  let n := nat_of_ascii c in
  ((9 <=? n) && (n <=? 13) || (28 <=? n) && (n <=? 32) || (n =? 133) || (n =? 160))%nat.

Fixpoint lstrip (s : string) : string :=
  match s with
  | "" => ""
  | String c s' => if is_space c then lstrip s' else s
  end.

Fixpoint rstrip (s : string) : string :=
  match s with
  | "" => ""
  | String c s' =>
      match rstrip s' with
      | "" => if is_space c then "" else String c ""
      | r => String c r
      end
  end.

(** [s.strip()] *)
Definition strip (s : string) : string := rstrip (lstrip s).

(** [s.startswith(p)] *)
Fixpoint startswith (p s : string) : bool :=
  match p, s with
  | "", _ => true
  | String a p', String b s' => Ascii.eqb a b && startswith p' s'
  | String _ _, "" => false
  end.

(** [s.endswith(p)] *)
Fixpoint endswith (p s : string) : bool :=
  (s =? p)
  || match s with
     | "" => false
     | String _ s' => endswith p s'
     end.

(** [s[n:]] *)
Fixpoint slice_from (n : nat) (s : string) : string :=
  match n, s with
  | S n', String _ s' => slice_from n' s'
  | _, _ => s
  end.

Fixpoint take (n : nat) (s : string) : string :=
  match n, s with
  | S n', String c s' => String c (take n' s')
  | _, _ => ""
  end.

(** [s[:-n]] for [n > 0] *)
Definition slice_to_last (n : nat) (s : string) : string :=
  take (String.length s - n) s.

(** Lines 110-113: the two tests on the start, one after the other. *)
Definition remove_opening_fence (response_text : string) : string :=
  let response_text :=
    if startswith "```json" response_text then slice_from 7 response_text
    else response_text in
  if startswith "```" response_text then slice_from 3 response_text
  else response_text.

(** Lines 114-115. *)
Definition remove_closing_fence (response_text : string) : string :=
  if endswith "```" response_text then slice_to_last 3 response_text
  else response_text.

(** Lines 107-117: what becomes of [response.text] before it is parsed. *)
Definition clean_response_text (text : string) : string :=
  strip (remove_closing_fence (remove_opening_fence (strip text))).

(** ** The normaliser: [analyze_prescription] after the extraction call *)

Definition MODEL_VERSION : string := "gemini-1.5-flash".

(** What [json.loads] does with a text: a value, a [json.JSONDecodeError]
    with its message, or another exception (the interpreter's limits). *)
Inductive loads_result : Type :=
| Loaded (v : json)
| JSONDecodeError (msg : string)
| LoadsRaised (e : exn).

(** What the handler answers after the extraction call: [jsonify(result), 200];
    the 500 of [except json.JSONDecodeError], with [details] and
    [raw_response]; or the 500 of [except Exception]. *)
Inductive analyze_response : Type :=
| Analyzed (result : json)
| ParseFailed (details : string) (raw_response : option string)
| AnalysisFailed (e : exn).

(** [x[k] = v] with a string key: only a dict takes it. *)
Definition py_setitem (k : string) (v : json) (target : json) : py_result json :=
  match target with
  | JDict d => Ok (JDict (dict_set k v d))
  | _ => Raise TypeError
  end.

(** Lines 123-128, on the value [json.loads] returned; [now] is
    [datetime.utcnow().isoformat()]. *)
Definition add_metadata (now : string) (parsed : json) : py_result json :=
  result <- py_setitem "analyzed_at" (JStr now) parsed ;;
  result <- py_setitem "model_version" (JStr MODEL_VERSION) result ;;
  d <- as_dict result ;;
  let accuracy := py_get_default "confidence_score" (JFloat F64.zero) d in
  scaled <- py_mul_100 accuracy ;;
  rounded <- py_round2 scaled ;;
  py_setitem "accuracy_percentage" rounded result.

Section Analysis.

(** [json.loads], of Python's standard library. *)
Variable json_loads : string -> loads_result.

(** Lines 107-147, given [response.text] and the clock. *)
Definition analyze_prescription (now : string) (text : string) : analyze_response :=
  let response_text := clean_response_text text in
  match json_loads response_text with
  | Loaded parsed =>
      match add_metadata now parsed with
      | Ok result => Analyzed result
      | Raise e => AnalysisFailed e
      end
  | JSONDecodeError msg => ParseFailed msg (Some response_text)
  | LoadsRaised e => AnalysisFailed e
  end.

End Analysis.

(** ** Shapes of records, as the statements below use them *)

(** A value Python can compare with a float. *)
Definition is_number (v : json) : bool :=
  match v with
  | JInt _ | JFloat _ | JBool _ => true
  | _ => false
  end.

(** The field is absent or holds a number. *)
Definition number_or_absent (key : string) (d : dict) : Prop :=
  match dict_get key d with
  | Some v => is_number v = true
  | None => True
  end.

(** The field holds a non-empty string. *)
Definition nonempty_string_at (key : string) (d : dict) : Prop :=
  exists s, dict_get key d = Some (JStr s) /\ s <> "".

(** A medication entry with non-empty [name] and [dosage]. *)
Definition complete_medication (med : json) : Prop :=
  exists m, med = JDict m /\ nonempty_string_at "name" m /\ nonempty_string_at "dosage" m.

(** [x >= 0.85]; an int is compared exactly. *)
Definition at_least_0_85 (v : json) : bool :=
  match v with
  | JInt z => F64.Z_geb z F64.lit_0_85
  | JFloat x => F64.leb F64.lit_0_85 x
  | JBool b => F64.Z_geb (Z.b2z b) F64.lit_0_85
  | _ => false
  end.

(** A record whose names are filled in, whose medications are all complete
    and whose confidence is at least 0.85. *)
Definition complete_record (d : dict) (meds : list json) : Prop :=
  nonempty_string_at "patient_name" d
  /\ nonempty_string_at "doctor_name" d
  /\ dict_get "medications" d = Some (JList meds)
  /\ Forall complete_medication meds
  /\ exists c, dict_get "confidence_score" d = Some c /\ at_least_0_85 c = true.

(** A body shaped like a record: an object whose [medications], when
    present, is a list of objects, and whose [confidence_score], when
    present, is a number. The other fields may hold anything. *)
Definition record_shaped (d : dict) : Prop :=
  number_or_absent "confidence_score" d
  /\ match dict_get "medications" d with
     | None => True
     | Some (JList meds) => Forall (fun med => exists m, med = JDict m) meds
     | Some _ => False
     end.

(** The fields [validate_prescription] reads through [get], each with the
    empty value of its type. *)
Definition fields_with_empty_value : list (string * json) :=
  [("medications", JList []); ("patient_name", JStr ""); ("doctor_name", JStr "")].

(** ** Fenced payloads, as the statements below use them *)

Fixpoint all_space (s : string) : bool :=
  match s with
  | "" => true
  | String c s' => is_space c && all_space s'
  end.

(** The two opening fences, and a closing fence that may be missing. *)
Inductive fence_style : Type :=
| TaggedFence
| BareFence.

Definition opening_fence (style : fence_style) : string :=
  match style with
  | TaggedFence => "```json"
  | BareFence => "```"
  end.

Definition closing_fence (present : bool) : string :=
  if present then "```" else "".

(** [payload] between an opening fence and, when [closing], a closing one;
    [before] and [after] are the blanks (line breaks, in a model's answer)
    between the fences and the payload. *)
Definition fenced (style : fence_style) (closing : bool)
    (before after payload : string) : string :=
  opening_fence style ++ before ++ payload ++ after ++ closing_fence closing.

(** No fence marker at either end of the trimmed payload. *)
Definition clean_payload (payload : string) : Prop :=
  startswith "```" (strip payload) = false /\ endswith "```" (strip payload) = false.

(** What follows the opening fence starts with a character that continues
    neither the fence nor its [json] tag: a blank, or the first character
    of a JSON text. *)
Definition opens_payload (s : string) : Prop :=
  exists c rest, s = String c rest /\ c <> "`"%char /\ c <> "j"%char.

(** [del d[k]], for every entry under [k]. *)
Fixpoint dict_remove (k : string) (d : dict) : dict :=
  match d with
  | [] => []
  | (k', v) :: d' => if k =? k' then dict_remove k d' else (k', v) :: dict_remove k d'
  end.

(** An answer without its [analyzed_at] field. *)
Definition forget_timestamp (r : analyze_response) : analyze_response :=
  match r with
  | Analyzed (JDict d) => Analyzed (JDict (dict_remove "analyzed_at" d))
  | _ => r
  end.

(** The three keys the normaliser writes. *)
Definition normalizer_keys : list string :=
  ["analyzed_at"; "model_version"; "accuracy_percentage"].

(** [round(confidence * 100, 2)], as line 128 computes it. *)
Definition accuracy_of (confidence : json) : py_result json :=
  scaled <- py_mul_100 confidence ;;
  py_round2 scaled.

(** [d] after the three assignments of lines 123, 124 and 128. *)
Definition with_metadata (now : string) (accuracy_percentage : json) (d : dict) : dict :=
  dict_set "accuracy_percentage" accuracy_percentage
    (dict_set "model_version" (JStr MODEL_VERSION)
       (dict_set "analyzed_at" (JStr now) d)).

(** [0.0 <= x <= 1.0] *)
Definition in_unit_interval (v : json) : bool :=
  match v with
  | JInt z => (0 <=? z)%Z && (z <=? 1)%Z
  | JBool _ => true
  | JFloat x => F64.leb F64.zero x && F64.leb x F64.one
  | _ => false
  end.

(** ** A reference reader and the scenarios

    The theorems below hold for every [json_loads] and every [py_str]. To run
    the handlers on concrete texts, this section gives a reader for the part
    of JSON the scenarios use (objects, arrays, strings with the
    single-character escapes, integers, decimals without exponent, [true],
    [false], [null]); on that part it returns what Python's [json.loads]
    returns. *)
Module Reference.

Definition quote : ascii := "034"%char.
Definition backslash : ascii := "092"%char.
Definition newline : ascii := "010"%char.

Definition is_json_space (c : ascii) : bool :=
  let n := nat_of_ascii c in
  ((n =? 32) || (n =? 9) || (n =? 10) || (n =? 13))%nat.

Fixpoint skip_ws (s : string) : string :=
  match s with
  | "" => ""
  | String c s' => if is_json_space c then skip_ws s' else s
  end.

Definition unescape (c : ascii) : option ascii :=
  match c with
  | "034"%char => Some "034"%char
  | "092"%char => Some "092"%char
  | "/"%char => Some "/"%char
  | "b"%char => Some "008"%char
  | "f"%char => Some "012"%char
  | "n"%char => Some "010"%char
  | "r"%char => Some "013"%char
  | "t"%char => Some "009"%char
  | _ => None
  end.

(** The characters of a string literal, after its opening quote. *)
Fixpoint read_string (s : string) : option (string * string) :=
  match s with
  | "" => None
  | String c rest =>
      if Ascii.eqb c quote then Some ("", rest)
      else if Ascii.eqb c backslash then
        match rest with
        | String e rest' =>
            match unescape e, read_string rest' with
            | Some ch, Some (str, r) => Some (String ch str, r)
            | _, _ => None
            end
        | "" => None
        end
      else
        match read_string rest with
        | Some (str, r) => Some (String c str, r)
        | None => None
        end
  end.

Definition digit_of (c : ascii) : option Z :=
  let n := nat_of_ascii c in
  if ((48 <=? n) && (n <=? 57))%nat then Some (Z.of_nat (n - 48)) else None.

(** Digits read so far as a number, how many were read, and the rest. *)
Fixpoint read_digits (s : string) (acc : Z) (count : nat) : Z * nat * string :=
  match s with
  | "" => (acc, count, s)
  | String c rest =>
      match digit_of c with
      | Some d => read_digits rest (acc * 10 + d)%Z (S count)
      | None => (acc, count, s)
      end
  end.

(** [float] of the decimal [n / 10^k], correctly rounded. *)
Definition decimal (negative : bool) (n : Z) (k : nat) : spec_float :=
  match n with
  | Z.pos m =>
      F64.div (S754_finite negative m 0)
              (S754_finite false (Z.to_pos (10 ^ Z.of_nat k)) 0)
  | _ => S754_zero negative
  end.

Definition read_number (s : string) : option (json * string) :=
  let '(negative, body) :=
    match s with
    | String "-" rest => (true, rest)
    | _ => (false, s)
    end in
  let '(whole, count, rest) := read_digits body 0%Z O in
  match count with
  | O => None
  | S _ =>
      match rest with
      | String "." fraction =>
          let '(n, places, rest') := read_digits fraction whole O in
          match places with
          | O => None
          | S _ => Some (JFloat (decimal negative n places), rest')
          end
      | _ => Some (JInt (if negative then - whole else whole)%Z, rest)
      end
  end.

Definition read_scalar (s : string) : option (json * string) :=
  if startswith "true" s then Some (JBool true, slice_from 4 s)
  else if startswith "false" s then Some (JBool false, slice_from 5 s)
  else if startswith "null" s then Some (JNull, slice_from 4 s)
  else read_number s.

Fixpoint read_value (fuel : nat) (s : string) : option (json * string) :=
  match fuel with
  | O => None
  | S fuel' =>
      match skip_ws s with
      | String "{" rest =>
          match skip_ws rest with
          | String "}" rest' => Some (JDict [], rest')
          | members => read_members fuel' members []
          end
      | String "[" rest =>
          match skip_ws rest with
          | String "]" rest' => Some (JList [], rest')
          | elements => read_elements fuel' elements []
          end
      | String "034" rest =>
          match read_string rest with
          | Some (str, rest') => Some (JStr str, rest')
          | None => None
          end
      | scalar => read_scalar scalar
      end
  end
with read_members (fuel : nat) (s : string) (acc : dict) : option (json * string) :=
  match fuel with
  | O => None
  | S fuel' =>
      match skip_ws s with
      | String "034" rest =>
          match read_string rest with
          | Some (key, rest1) =>
              match skip_ws rest1 with
              | String ":" rest2 =>
                  match read_value fuel' rest2 with
                  | Some (v, rest3) =>
                      match skip_ws rest3 with
                      | String "," rest4 => read_members fuel' rest4 (dict_set key v acc)
                      | String "}" rest4 => Some (JDict (dict_set key v acc), rest4)
                      | _ => None
                      end
                  | None => None
                  end
              | _ => None
              end
          | None => None
          end
      | _ => None
      end
  end
with read_elements (fuel : nat) (s : string) (acc : list json) : option (json * string) :=
  match fuel with
  | O => None
  | S fuel' =>
      match read_value fuel' s with
      | Some (v, rest) =>
          match skip_ws rest with
          | String "," rest' => read_elements fuel' rest' (acc ++ [v])%list
          | String "]" rest' => Some (JList (acc ++ [v])%list, rest')
          | _ => None
          end
      | None => None
      end
  end.

Definition json_loads (s : string) : loads_result :=
  match read_value (2 * String.length s + 2) s with
  | Some (v, rest) =>
      match skip_ws rest with
      | "" => Loaded v
      | _ => JSONDecodeError "Extra data"
      end
  | None => JSONDecodeError "Expecting value"
  end.

(** [str(x)] for [None], booleans and integers; the scenarios format no
    other value. *)
Definition py_str (v : json) : string :=
  match v with
  | JNull => "None"
  | JBool true => "True"
  | JBool false => "False"
  | JInt z => DecimalString.NilZero.string_of_int (Z.to_int z)
  | _ => ""
  end.

Definition q : string := String quote "".
Definition nl : string := String newline "".

(** Scenario A: a fenced, nearly empty payload. *)
Definition scenario_A_payload : string :=
  "{" ++ q ++ "patient_name" ++ q ++ ":" ++ q ++ q ++ ","
      ++ q ++ "medications" ++ q ++ ":[]}".

Definition scenario_A_text : string :=
  "```json" ++ nl ++ scenario_A_payload ++ nl ++ "```".

Definition scenario_A_parsed : dict :=
  [("patient_name", JStr ""); ("medications", JList [])].

(** What Scenario A's record is, given the clock's reading. *)
Definition scenario_A_record (now : string) : dict :=
  [("patient_name", JStr ""); ("medications", JList []);
   ("analyzed_at", JStr now); ("model_version", JStr "gemini-1.5-flash");
   ("accuracy_percentage", JFloat (S754_zero false))].

(** Scenario B: a record with one medication without dosage. *)
Definition scenario_B_record : json :=
  JDict [("confidence_score", JFloat (S754_finite false 4503599627370496 (-53)));
         ("medications",
          JList [JDict [("name", JStr "Amoxicillin"); ("dosage", JStr "")]]);
         ("patient_name", JStr "Jane");
         ("doctor_name", JStr "Dr. X")].

(** Scenario C: a text that is no JSON. *)
Definition scenario_C_text : string := "not json at all".

Definition a_timestamp : string := "2024-05-01T10:30:00.000000".
Definition another_timestamp : string := "2024-05-01T10:30:07.250000".

(** The floats 0.9, 0.92, 1.5, 92.0 and 150.0. *)
Definition f_0_9 : spec_float := S754_finite false 8106479329266893 (-53).
Definition f_1_5 : spec_float := S754_finite false 6755399441055744 (-52).
Definition f_150 : spec_float := S754_finite false 5277655813324800 (-45).

(** A record with everything filled in but no medication at all. *)
Definition record_without_medications : dict :=
  [("patient_name", JStr "Jane"); ("doctor_name", JStr "Dr. X");
   ("medications", JList []); ("confidence_score", JFloat f_0_9)].

(** A record with everything filled in and one complete medication. *)
Definition one_medication : list json :=
  [JDict [("name", JStr "Amoxicillin"); ("dosage", JStr "500 mg");
          ("frequency", JStr "3 times a day"); ("duration", JStr "7 days")]].

Definition complete_example : dict :=
  [("patient_name", JStr "Jane"); ("doctor_name", JStr "Dr. X");
   ("medications", JList one_medication); ("confidence_score", JFloat f_0_9)].

(** A parsed payload whose confidence is out of range. *)
Definition out_of_range_payload : dict := [("confidence_score", JFloat f_1_5)].


(** A record without [medications], and the same with an empty list. *)
Definition record_no_key : dict := [("patient_name", JStr "Jane")].
Definition record_empty_list : dict :=
  [("patient_name", JStr "Jane"); ("medications", JList [])].

End Reference.

(** ** What the rule engine reads and writes, in closed form *)

(** The four keys [validate_prescription] looks up. *)
Definition validation_keys : list string :=
  ["patient_name"; "doctor_name"; "medications"; "confidence_score"].

Definition is_object (v : json) : Prop := exists m, v = JDict m.

(** [None], a boolean or a number: a value with no length and no items. *)
Definition is_scalar (v : json) : bool :=
  match v with
  | JNull | JBool _ | JInt _ | JFloat _ => true
  | _ => false
  end.

(** The values of [medications] the handler gets through: no key, a list of
    objects, or an empty string or object (both falsy, with nothing to
    iterate). *)
Definition medications_fit (v : option json) : Prop :=
  match v with
  | None => True
  | Some (JList meds) => Forall is_object meds
  | Some (JStr s) => s = ""
  | Some (JDict m) => m = []
  | Some _ => False
  end.

Definition is_empty {A : Type} (l : list A) : bool :=
  match l with
  | [] => true
  | _ => false
  end.

(** Every entry has a truthy [name]. *)
Definition all_named (entries : list dict) : bool :=
  forallb (fun m => truthy (py_get "name" m)) entries.

(** One error per entry without a truthy [name], in order. *)
Definition name_errors (entries : list dict) : list string :=
  flat_map (fun m => if truthy (py_get "name" m) then []
                     else ["Medication name missing"]) entries.

Section ClosedForm.

Variable py_str : json -> string.

(** One warning per entry without a truthy [dosage], in order. *)
Definition dosage_warnings (entries : list dict) : list string :=
  flat_map (fun m => if truthy (py_get "dosage" m) then []
                     else ["Dosage missing for "
                             ++ py_format py_str
                                  (py_get_default "name" (JStr "unknown medication") m)])
           entries.

(** The result for a body [d] whose medications are the objects [entries]
    and whose confidence is below 0.85 exactly when [low]. *)
Definition expected_results (d : dict) (entries : list dict) (low : bool)
    : validation_results :=
  {| is_valid := negb (is_empty entries) && all_named entries;
     warnings :=
       ((if truthy (py_get "patient_name" d) then [] else ["Patient name is missing"])
          ++ (if truthy (py_get "doctor_name" d) then [] else ["Doctor name is missing"])
          ++ dosage_warnings entries
          ++ (if low then ["Low confidence score - manual review recommended"] else []))%list;
     errors :=
       ((if is_empty entries then ["No medications found"] else [])
          ++ name_errors entries)%list |}.

End ClosedForm.

(** ** Parts of a text *)

(** [t] is a contiguous part of [s]. *)
Definition part_of (t s : string) : Prop := exists a b, s = a ++ t ++ b.

(** A parsed value the normaliser can finish: an object whose
    [confidence_score] is absent or a number. *)
Definition fit_payload (parsed : json) : Prop :=
  exists d, parsed = JDict d /\ number_or_absent "confidence_score" d.

(** ** Keys of a record *)



(** ** The whole [/analyze] handler

    Lines 57-69 and 103-107 around the normaliser: the test on
    [request.files], [Image.open] on the uploaded bytes, and the call of the
    extraction service with its fixed prompt. What the two collaborators do
    is not in the repository: each either returns its value or raises, a
    [json.JSONDecodeError] or any other exception, which the handler's two
    [except] clauses tell apart. *)

Inductive raised : Type :=
| RaisedDecodeError (msg : string)
| RaisedOther (details : string).

Inductive outcome (A : Type) : Type :=
| Returned (a : A)
| Failed (r : raised).
Arguments Returned {A} a.
Arguments Failed {A} r.

(** What [/analyze] answers: the 400 of line 62; what lines 107-147 answer
    once the service has returned its text; or a 500 for an exception
    raised before [response_text] is bound: from the [JSONDecodeError]
    clause, then with [raw_response] null, or from the general clause. *)
Inductive analyze_answer : Type :=
| NoImageProvided
| AfterExtraction (r : analyze_response)
| EarlyDecodeError (details : string)
| EarlyFailure (details : string).

Definition status_code (a : analyze_answer) : nat :=
  match a with
  | NoImageProvided => 400
  | AfterExtraction (Analyzed _) => 200
  | _ => 500
  end.

(** The [raw_response] field of the answer, when it has one: [Some None] is
    JSON's null. *)
Definition raw_response_of (a : analyze_answer) : option (option string) :=
  match a with
  | AfterExtraction (ParseFailed _ raw) => Some raw
  | EarlyDecodeError _ => Some None
  | _ => None
  end.

Definition early_answer (r : raised) : analyze_answer :=
  match r with
  | RaisedDecodeError msg => EarlyDecodeError msg
  | RaisedOther details => EarlyFailure details
  end.

(** [request.files.get(name)]: the first file under the name. *)
Fixpoint files_get {A : Type} (name : string) (files : list (string * A)) : option A :=
  match files with
  | [] => None
  | (n, f) :: rest => if name =? n then Some f else files_get name rest
  end.

Section Handler.

Variable json_loads : string -> loads_result.

(** An opened image, and [Image.open(io.BytesIO(image_bytes))]. *)
Variable image : Type.
Variable image_open : string -> outcome image.

(** [model.generate_content([prompt, image]).text] *)
Variable generate_content : image -> outcome string.

(** Lines 57-147; [files] maps a field name to the bytes of its upload. *)
Definition analyze_request (now : string) (files : list (string * string))
    : analyze_answer :=
  match files_get "image" files with
  | None => NoImageProvided
  | Some image_bytes =>
      match image_open image_bytes with
      | Failed r => early_answer r
      | Returned img =>
          match generate_content img with
          | Failed r => early_answer r
          | Returned text => AfterExtraction (analyze_prescription json_loads now text)
          end
      end
  end.

End Handler.

(** ** The [/health] handler *)

(** Lines 48-55: the body of the 200; [now] is the clock's reading. *)
Definition health_check (now : string) : dict :=
  [("status", JStr "healthy"); ("timestamp", JStr now); ("model", JStr "gemini-1.5-flash")].

(** ** Further cases *)
Module Cases.

Definition q : string := String "034"%char "".

(** A body with fields the rule engine does not read, and one without. *)
Definition record_with_extras : dict :=
  [("patient_name", JStr "Jane"); ("date", JStr "2024-05-01");
   ("medications", JList []); ("special_instructions", JStr "with food");
   ("verification_status", JStr "verified")].
Definition record_bare : dict :=
  [("medications", JList []); ("patient_name", JStr "Jane")].

(** Two entries: one with no [name] key and no dosage, one with neither
    filled in. *)
Definition two_poor_entries : list dict :=
  [[("frequency", JStr "daily")]; [("name", JStr ""); ("dosage", JStr "")]].

Definition record_two_poor_entries : dict :=
  [("patient_name", JStr "Jane"); ("medications", JList (map JDict two_poor_entries));
   ("confidence_score", JInt 1)].

(** Bodies with [medications] null, and with an integer confidence. *)
Definition record_null_medications : dict := [("medications", JNull)].
Definition record_int_confidence : dict := [("confidence_score", JInt 1)].

(** The same medications under different names and confidences. *)
Definition record_named : dict :=
  [("patient_name", JStr "Jane"); ("doctor_name", JStr "Dr. X");
   ("medications", JList (map JDict two_poor_entries));
   ("confidence_score", JInt 1)].
Definition record_unnamed : dict :=
  [("medications", JList (map JDict two_poor_entries))].

(** A response with blanks and fences around its payload. *)
Definition padded_text : string :=
  "  ```json" ++ Reference.nl ++ "{}" ++ Reference.nl ++ "```  ".

(** Texts that are JSON and no object, and an object whose confidence is a
    string. *)
Definition list_text : string := "[1, 2]".
Definition string_confidence_text : string :=
  "{" ++ q ++ "confidence_score" ++ q ++ ": " ++ q ++ "0.9" ++ q ++ "}".


(** Collaborators for the handler: every upload opens as itself, and the
    service answers a fixed text for every image. *)
Definition open_any (bytes : string) : outcome string := Returned bytes.
Definition answer_with (text : string) (img : string) : outcome string := Returned text.
Definition service_down (img : string) : outcome string :=
  Failed (RaisedOther "503 Service Unavailable").
Definition service_decode_error (img : string) : outcome string :=
  Failed (RaisedDecodeError "Expecting value").

Definition upload : list (string * string) := [("image", "bytes of a scan")].
Definition wrong_field : list (string * string) := [("file", "bytes of a scan")].

End Cases.

(** * Properties *)

(** ** Dictionaries *)

Lemma dict_get_set_same (k : string) (v : json) (d : dict) :
  dict_get k (dict_set k v d) = Some v.
Proof.
  induction d as [| [k' v'] d IH]; simpl.
  - now rewrite String.eqb_refl.
  - destruct (k =? k') eqn:E; simpl; rewrite E; auto.
Qed.

Lemma dict_get_set_other (k k' : string) (v : json) (d : dict) :
  k <> k' -> dict_get k (dict_set k' v d) = dict_get k d.
Proof.
  intros Hne. induction d as [| [k0 v0] d IH]; simpl.
  - destruct (k =? k') eqn:E; auto. apply String.eqb_eq in E. contradiction.
  - destruct (k' =? k0) eqn:E; simpl.
    + apply String.eqb_eq in E. subst k0.
      destruct (k =? k') eqn:E'; auto. apply String.eqb_eq in E'. contradiction.
    + now rewrite IH.
Qed.

Lemma dict_set_absent (k : string) (v : json) (d : dict) :
  dict_get k d = None -> dict_set k v d = (d ++ [(k, v)])%list.
Proof.
  induction d as [| [k' v'] d IH]; simpl; auto.
  destruct (k =? k'); [discriminate |]. intros H. now rewrite IH.
Qed.

(** ** Comparisons *)

Lemma SFcompare_antisym (x y : spec_float) :
  SFcompare y x = option_map CompOpp (SFcompare x y).
Proof.
  destruct x as [sx | sx | | sx mx ex], y as [sy | sy | | sy my ey]; simpl;
    try reflexivity;
    try (destruct sx; reflexivity); try (destruct sy; reflexivity);
    try (destruct sx, sy; reflexivity).
  destruct sx, sy; simpl; try reflexivity;
    rewrite (Z.compare_antisym ex ey); destruct (ex ?= ey)%Z; simpl; try reflexivity;
    rewrite (ZC4 my mx); now rewrite ?CompOpp_involutive.
Qed.

Lemma leb_not_ltb (x y : spec_float) : F64.leb x y = true -> F64.ltb y x = false.
Proof.
  unfold F64.leb, F64.ltb, SFleb, SFltb. rewrite (SFcompare_antisym x y).
  destruct (SFcompare x y) as [[| |] |]; simpl; congruence.
Qed.

Lemma Z_geb_not_ltb (z : Z) (f : spec_float) : F64.Z_geb z f = true -> F64.Z_ltb z f = false.
Proof.
  destruct f as [s | s | | s m e]; simpl; try discriminate.
  - intros H. apply Z.ltb_ge. now apply Z.leb_le.
  - now intros ->.
  - destruct (0 <=? e)%Z; intros H; apply Z.ltb_ge; now apply Z.leb_le.
Qed.

Lemma at_least_0_85_not_low (c : json) :
  at_least_0_85 c = true -> py_lt_float c F64.lit_0_85 = Ok false.
Proof.
  destruct c; unfold at_least_0_85, py_lt_float; try discriminate;
    intros H; f_equal; auto using Z_geb_not_ltb, leb_not_ltb.
Qed.

Lemma is_number_comparable (v : json) (f : spec_float) :
  is_number v = true -> exists low, py_lt_float v f = Ok low.
Proof. destruct v; simpl; try discriminate; eauto. Qed.

Lemma truthy_nonempty (s : string) : s <> "" -> truthy (JStr s) = true.
Proof.
  intros H. simpl. destruct (s =? "") eqn:E; auto.
  apply String.eqb_eq in E. contradiction.
Qed.

(** ** The rule engine *)

Section ValidationProperties.

Variable py_str : json -> string.

Lemma consistent_initial : consistent initial_results.
Proof. unfold consistent; simpl; tauto. Qed.

Lemma consistent_warning (w : string) (vr : validation_results) :
  consistent vr -> consistent (append_warning w vr).
Proof. unfold consistent; simpl; tauto. Qed.

Lemma consistent_error (e : string) (vr : validation_results) :
  consistent (set_invalid (append_error e vr)).
Proof.
  unfold consistent; simpl. split; [discriminate |].
  intros H. apply app_eq_nil in H. destruct H; discriminate.
Qed.

Lemma consistent_check_name (key message : string) (d : dict) (vr : validation_results) :
  consistent vr -> consistent (check_name key message d vr).
Proof.
  intros H. unfold check_name. destruct (negb _); auto using consistent_warning.
Qed.

Lemma consistent_check_medication (med : json) (vr vr' : validation_results) :
  consistent vr -> check_medication py_str med vr = Ok vr' -> consistent vr'.
Proof.
  intros H. unfold check_medication. destruct med; simpl; try discriminate.
  intros E. injection E as <-.
  destruct (negb (truthy (py_get "name" d))), (negb (truthy (py_get "dosage" d)));
    auto using consistent_warning, consistent_error.
Qed.

Lemma consistent_check_medications (meds : list json) :
  forall vr vr', consistent vr -> check_medications py_str meds vr = Ok vr' -> consistent vr'.
Proof.
  induction meds as [| med rest IH]; simpl; intros vr vr' H E.
  - now injection E as <-.
  - destruct (check_medication py_str med vr) as [vr1 |] eqn:E1; simpl in E; [| discriminate].
    eapply IH; [| exact E]. eapply consistent_check_medication; eauto.
Qed.

Lemma consistent_validation_rules (body : json) (vr : validation_results) :
  validation_rules py_str body = Ok vr -> consistent vr.
Proof.
  unfold validation_rules. destruct body; simpl; try discriminate.
  set (vr0 := check_name "doctor_name" _ _ _).
  assert (H0 : consistent vr0)
    by (apply consistent_check_name, consistent_check_name, consistent_initial).
  clearbody vr0.
  unfold check_medications_present.
  destruct (medications_missing d) as [missing |]; simpl; [| discriminate].
  set (vr1 := if missing then _ else _).
  assert (H1 : consistent vr1)
    by (subst vr1; destruct missing; auto using consistent_error).
  clearbody vr1.
  destruct (py_iter _) as [meds |]; simpl; [| discriminate].
  destruct (check_medications py_str meds vr1) as [vr2 |] eqn:E2; simpl; [| discriminate].
  apply consistent_check_medications in E2; auto.
  unfold check_confidence. destruct (py_lt_float _ _) as [low |]; simpl; [| discriminate].
  intros E. injection E as <-. destruct low; auto using consistent_warning.
Qed.

(** C2. Whenever [validate_prescription] answers with a validation result,
    [is_valid] is false exactly when the [errors] list is not empty; the
    [warnings] list plays no part. *)
Theorem is_valid_false_iff_errors (body : json) (vr : validation_results) :
  validate_prescription py_str body = Validated vr ->
  (is_valid vr = false <-> errors vr <> []).
Proof.
  unfold validate_prescription.
  destruct (validation_rules py_str body) as [vr0 |] eqn:E; [| discriminate].
  intros H. injection H as <-.
  apply consistent_validation_rules in E. unfold consistent in E.
  destruct (is_valid vr0); split; intros H.
  - discriminate.
  - destruct E as [E _]. now rewrite E in H.
  - intros Hn. apply E in Hn. discriminate.
  - reflexivity.
Qed.

Lemma check_name_frame (key message : string) (d : dict) (vr : validation_results) :
  is_valid (check_name key message d vr) = is_valid vr
  /\ errors (check_name key message d vr) = errors vr.
Proof. unfold check_name. destruct (negb _); auto. Qed.

Lemma check_name_filled (key message : string) (d : dict) (vr : validation_results) :
  nonempty_string_at key d -> check_name key message d vr = vr.
Proof.
  intros (s & Hs & Hne). unfold check_name, py_get. rewrite Hs.
  now rewrite truthy_nonempty.
Qed.

Lemma check_confidence_frame (d : dict) (vr : validation_results) :
  number_or_absent "confidence_score" d ->
  exists vr', check_confidence d vr = Ok vr'
              /\ is_valid vr' = is_valid vr /\ errors vr' = errors vr.
Proof.
  unfold number_or_absent, check_confidence, py_get_default.
  destruct (dict_get "confidence_score" d) as [c |].
  - intros H. destruct (is_number_comparable c F64.lit_0_85 H) as [low ->]. simpl.
    destruct low; eauto.
  - intros _. simpl. eauto.
Qed.

Lemma check_medication_complete (med : json) (vr : validation_results) :
  complete_medication med -> check_medication py_str med vr = Ok vr.
Proof.
  intros (m & -> & (n & Hn & Hn') & (ds & Hd & Hd')).
  unfold check_medication, py_get. simpl. rewrite Hn, Hd.
  now rewrite !truthy_nonempty.
Qed.

Lemma check_medications_complete (meds : list json) (vr : validation_results) :
  Forall complete_medication meds -> check_medications py_str meds vr = Ok vr.
Proof.
  induction 1 as [| med rest Hmed _ IH]; simpl; auto.
  now rewrite check_medication_complete.
Qed.

(** C7. A record whose [medications] is the empty list is invalid, and its
    only error is the string "No medications found". *)
Theorem empty_medications_one_error (d : dict) :
  dict_get "medications" d = Some (JList []) ->
  number_or_absent "confidence_score" d ->
  exists vr, validate_prescription py_str (JDict d) = Validated vr
             /\ is_valid vr = false
             /\ errors vr = ["No medications found"].
Proof.
  intros Hmeds Hconf.
  unfold validate_prescription, validation_rules. simpl.
  set (vr0 := check_name "doctor_name" _ _ _).
  assert (H0 : errors vr0 = []).
  { subst vr0. now rewrite (proj2 (check_name_frame _ _ _ _)),
      (proj2 (check_name_frame _ _ _ _)). }
  clearbody vr0.
  unfold check_medications_present, medications_missing, py_get, py_get_default.
  rewrite Hmeds. simpl.
  destruct (check_confidence_frame d (set_invalid (append_error "No medications found" vr0)) Hconf)
    as (vr' & -> & Hv & He).
  exists vr'. simpl in Hv, He. rewrite H0 in He. auto.
Qed.

(** C3, as the code has it. A record with filled-in names, a non-empty
    list of complete medications and a confidence of at least 0.85 is
    valid, with no warning and no error. *)
Theorem complete_record_is_valid (d : dict) (meds : list json) :
  complete_record d meds ->
  meds <> [] ->
  validate_prescription py_str (JDict d)
  = Validated {| is_valid := true; warnings := []; errors := [] |}.
Proof.
  intros (Hp & Hd & Hmeds & Hall & c & Hc & Hge) Hne.
  unfold validate_prescription, validation_rules. simpl.
  rewrite (check_name_filled "patient_name" _ _ _ Hp).
  rewrite (check_name_filled "doctor_name" _ _ _ Hd).
  unfold check_medications_present, medications_missing, py_get, py_getitem, py_get_default.
  rewrite Hmeds.
  assert (Hlen : truthy (JList meds) = true /\ Nat.eqb (List.length meds) 0 = false)
    by (destruct meds; [contradiction | auto]).
  destruct Hlen as [Ht Hlen]. rewrite Ht.
  cbn [negb bind py_len py_iter]. rewrite Hlen.
  rewrite (check_medications_complete _ _ Hall).
  cbn [bind]. unfold check_confidence, py_get_default. rewrite Hc.
  now rewrite (at_least_0_85_not_low c Hge).
Qed.

Lemma check_medications_answer (meds : list json) :
  Forall (fun med => exists m, med = JDict m) meds ->
  forall vr, exists vr', check_medications py_str meds vr = Ok vr'.
Proof.
  induction 1 as [| med rest [m ->] _ IH]; intros vr; simpl; eauto.
Qed.

Lemma medications_missing_answer (d : dict) (meds : list json) :
  dict_get "medications" d = Some (JList meds) ->
  exists missing, medications_missing d = Ok missing.
Proof.
  intros H. unfold medications_missing, py_get, py_getitem. rewrite H.
  destruct meds; simpl; eauto.
Qed.

(** X1. On a record-shaped body the rule engine always answers with a
    validation result. *)
Theorem validate_answers_on_records (d : dict) :
  record_shaped d ->
  exists vr, validate_prescription py_str (JDict d) = Validated vr.
Proof.
  intros [Hconf Hmeds].
  unfold validate_prescription, validation_rules. cbn [as_dict bind].
  set (vr0 := check_name "doctor_name" _ _ _). clearbody vr0.
  unfold check_medications_present.
  assert (Hstep : exists missing meds,
             medications_missing d = Ok missing
             /\ py_iter (py_get_default "medications" (JList []) d) = Ok meds
             /\ Forall (fun med => exists m, med = JDict m) meds).
  { unfold py_get_default.
    destruct (dict_get "medications" d) as [v |] eqn:E.
    - destruct v; try contradiction.
      destruct (medications_missing_answer d l E) as [missing Hm].
      exists missing, l. auto.
    - exists true, []. unfold medications_missing, py_get. rewrite E. auto. }
  destruct Hstep as (missing & meds & -> & -> & Hall). cbn [bind].
  set (vr1 := if missing then _ else _). clearbody vr1.
  destruct (check_medications_answer meds Hall vr1) as [vr2 ->]. cbn [bind].
  destruct (check_confidence_frame d vr2 Hconf) as (vr3 & -> & _). eauto.
Qed.

Lemma validation_rules_ext (d d' : dict) :
  truthy (py_get "patient_name" d) = truthy (py_get "patient_name" d') ->
  truthy (py_get "doctor_name" d) = truthy (py_get "doctor_name" d') ->
  medications_missing d = medications_missing d' ->
  py_get_default "medications" (JList []) d = py_get_default "medications" (JList []) d' ->
  dict_get "confidence_score" d = dict_get "confidence_score" d' ->
  validation_rules py_str (JDict d) = validation_rules py_str (JDict d').
Proof.
  intros Hp Hd Hm Hi Hc. unfold validation_rules. simpl.
  unfold check_name, check_medications_present, check_confidence, py_get_default in *.
  now rewrite Hp, Hd, Hm, Hi, Hc.
Qed.

(** C9. An absent field is read as its empty value: two records that agree
    on every other key, one without the key and one holding the empty
    value ([[]] for [medications], the empty string for [patient_name] and
    [doctor_name]), get the same answer. *)
Theorem absent_field_as_empty (key : string) (empty : json) (d d' : dict) :
  In (key, empty) fields_with_empty_value ->
  (forall k, k <> key -> dict_get k d = dict_get k d') ->
  dict_get key d = None ->
  dict_get key d' = Some empty ->
  validate_prescription py_str (JDict d) = validate_prescription py_str (JDict d').
Proof.
  intros Hin Hother Habsent Hempty.
  unfold validate_prescription.
  enough (E : validation_rules py_str (JDict d) = validation_rules py_str (JDict d'))
    by now rewrite E.
  simpl in Hin. destruct Hin as [E | [E | [E | []]]];
    injection E as <- <-;
    apply validation_rules_ext;
    unfold medications_missing, py_get, py_getitem, py_get_default;
    rewrite ?Habsent, ?Hempty; try reflexivity;
    rewrite Hother by discriminate; reflexivity.
Qed.

End ValidationProperties.

(** ** Text *)

Lemma append_assoc (s t u : string) : (s ++ t) ++ u = s ++ t ++ u.
Proof. induction s; simpl; congruence. Qed.

Lemma append_empty_r (s : string) : s ++ "" = s.
Proof. induction s; simpl; congruence. Qed.

Lemma space_not_backtick (c : ascii) : is_space c = true -> c <> "`"%char.
Proof. intros H ->. discriminate. Qed.

Lemma lstrip_app_space (a s : string) : all_space a = true -> lstrip (a ++ s) = lstrip s.
Proof.
  induction a as [| c a IH]; simpl; auto.
  intros H. apply andb_prop in H as [Hc Ha]. rewrite Hc. auto.
Qed.

Lemma lstrip_idempotent (s : string) : lstrip (lstrip s) = lstrip s.
Proof.
  induction s as [| c s IH]; simpl; auto.
  destruct (is_space c) eqn:E; auto. simpl. now rewrite E.
Qed.

Lemma rstrip_cons (c : ascii) (s : string) :
  rstrip (String c s) = "" \/ exists r, rstrip (String c s) = String c r.
Proof.
  simpl. destruct (rstrip s); [destruct (is_space c) |]; eauto.
Qed.

Lemma rstrip_app (s t : string) :
  rstrip (s ++ t) = match rstrip t with
                    | "" => rstrip s
                    | r => s ++ r
                    end.
Proof.
  induction s as [| c s IH]; simpl.
  - destruct (rstrip t); reflexivity.
  - rewrite IH. destruct (rstrip t) as [| c' r]; auto.
    destruct s; reflexivity.
Qed.

Lemma rstrip_all_space (b : string) : all_space b = true -> rstrip b = "".
Proof.
  induction b as [| c b IH]; simpl; auto.
  intros H. apply andb_prop in H as [Hc Hb]. now rewrite IH, Hc.
Qed.

Lemma rstrip_app_space (s b : string) : all_space b = true -> rstrip (s ++ b) = rstrip s.
Proof. intros H. now rewrite rstrip_app, rstrip_all_space. Qed.

Lemma rstrip_idempotent (s : string) : rstrip (rstrip s) = rstrip s.
Proof.
  induction s as [| c s IH]; simpl; auto.
  destruct (rstrip s) as [| c' r] eqn:E.
  - destruct (is_space c) eqn:Ec; simpl; auto. now rewrite Ec.
  - change (rstrip (String c (String c' r))) with
      (match rstrip (String c' r) with
       | "" => if is_space c then "" else String c ""
       | r0 => String c r0
       end).
    now rewrite IH.
Qed.

Lemma strip_commute (s : string) : rstrip (lstrip s) = lstrip (rstrip s).
Proof.
  induction s as [| c s IH]; auto.
  cbn [lstrip]. destruct (is_space c) eqn:Ec.
  - rewrite IH. cbn [rstrip]. destruct (rstrip s) as [| c' r]; simpl; now rewrite Ec.
  - destruct (rstrip_cons c s) as [E | [r E]]; rewrite E.
    + simpl in E. destruct (rstrip s); [rewrite Ec in E |]; discriminate.
    + simpl. now rewrite Ec.
Qed.

Lemma strip_idempotent (s : string) : strip (strip s) = strip s.
Proof.
  unfold strip. rewrite (strip_commute (rstrip (lstrip s))).
  now rewrite rstrip_idempotent, <- strip_commute, lstrip_idempotent.
Qed.

Lemma strip_between_spaces (a b s : string) :
  all_space a = true -> all_space b = true -> strip (a ++ s ++ b) = strip s.
Proof.
  intros Ha Hb. unfold strip.
  now rewrite lstrip_app_space, strip_commute, rstrip_app_space, <- strip_commute.
Qed.

Lemma endswith_app (p s : string) : endswith p (s ++ p) = true.
Proof.
  induction s as [| c s IH]; simpl.
  - destruct p; simpl; [reflexivity | now rewrite Ascii.eqb_refl, String.eqb_refl].
  - rewrite IH. apply orb_true_r.
Qed.

Lemma length_app (s t : string) : String.length (s ++ t) = String.length s + String.length t.
Proof. induction s; simpl; auto. Qed.

Lemma take_app (s t : string) : take (String.length s) (s ++ t) = s.
Proof. induction s; simpl; [destruct t |]; congruence. Qed.

Lemma slice_to_last_app (p s : string) : slice_to_last (String.length p) (s ++ p) = s.
Proof.
  unfold slice_to_last. rewrite length_app.
  replace (String.length s + String.length p - String.length p) with (String.length s) by lia.
  apply take_app.
Qed.

Lemma endswith_fence_cons (c : ascii) (s : string) :
  c <> "`"%char -> endswith "```" (String c s) = endswith "```" s.
Proof.
  intros H. cbn [endswith]. replace (String c s =? "```") with false; auto.
  simpl. destruct (Ascii.eqb c "`") eqn:E; auto.
  apply Ascii.eqb_eq in E. contradiction.
Qed.

Lemma endswith_fence_lstrip (s : string) : endswith "```" (lstrip s) = endswith "```" s.
Proof.
  induction s as [| c s IH]; auto.
  cbn [lstrip]. destruct (is_space c) eqn:E; auto.
  now rewrite endswith_fence_cons by now apply space_not_backtick.
Qed.

Lemma opens_payload_app (s t : string) : opens_payload s -> opens_payload (s ++ t).
Proof. intros (c & rest & -> & H). exists c, (rest ++ t). auto. Qed.

Lemma opens_payload_rstrip (s : string) :
  opens_payload s -> rstrip s <> "" -> opens_payload (rstrip s).
Proof.
  intros (c & rest & -> & H) Hne.
  destruct (rstrip_cons c rest) as [E | [r E]]; [contradiction |].
  rewrite E. exists c, r. auto.
Qed.

Lemma opening_fence_removed (style : fence_style) (body : string) :
  opens_payload body -> remove_opening_fence (opening_fence style ++ body) = body.
Proof.
  intros (c & rest & -> & Hfence & Htag).
  apply not_eq_sym, Ascii.eqb_neq in Hfence, Htag.
  unfold remove_opening_fence.
  destruct style; cbn [opening_fence append startswith slice_from];
    rewrite ?Ascii.eqb_refl; cbn [andb]; rewrite ?Hfence, ?Htag; cbn [andb];
    cbn [startswith slice_from]; rewrite ?Ascii.eqb_refl, ?Hfence; reflexivity.
Qed.

Lemma closing_fence_removed (s : string) : remove_closing_fence (s ++ "```") = s.
Proof.
  unfold remove_closing_fence. rewrite endswith_app.
  apply (slice_to_last_app "```").
Qed.

Lemma strip_fence_blank (style : fence_style) (body : string) :
  rstrip body = "" -> strip (opening_fence style ++ body) = opening_fence style.
Proof.
  intros E. unfold strip.
  replace (lstrip (opening_fence style ++ body)) with (opening_fence style ++ body)
    by (destruct style; reflexivity).
  rewrite rstrip_app, E. destruct style; reflexivity.
Qed.

Lemma strip_fence_nonblank (style : fence_style) (body : string) :
  rstrip body <> "" ->
  strip (opening_fence style ++ body) = opening_fence style ++ rstrip body.
Proof.
  intros E. unfold strip.
  replace (lstrip (opening_fence style ++ body)) with (opening_fence style ++ body)
    by (destruct style; reflexivity).
  rewrite rstrip_app. destruct (rstrip body); [contradiction | reflexivity].
Qed.

Lemma rstrip_closing_fence (s : string) : rstrip (s ++ "```") = s ++ "```".
Proof. now rewrite rstrip_app. Qed.

Lemma opens_payload_nonempty (s : string) : opens_payload s -> s <> "".
Proof. intros (c & rest & -> & _). discriminate. Qed.

(** A fenced payload is cleaned to the trimmed payload. *)
Lemma clean_fenced (style : fence_style) (closing : bool) (before after payload : string) :
  clean_payload payload ->
  all_space before = true ->
  all_space after = true ->
  opens_payload (before ++ payload) ->
  clean_response_text (fenced style closing before after payload) = strip payload.
Proof.
  intros [_ Hend] Hb Ha Hopen.
  assert (Hbody : strip (before ++ payload ++ after) = strip payload)
    by now apply strip_between_spaces.
  assert (Hopen' : opens_payload (before ++ payload ++ after))
    by (rewrite <- append_assoc; now apply opens_payload_app).
  unfold clean_response_text, fenced. destruct closing; unfold closing_fence.
  - replace (before ++ payload ++ after ++ "```")
      with ((before ++ payload ++ after) ++ "```")
      by now rewrite !append_assoc.
    assert (Hfenced : opens_payload ((before ++ payload ++ after) ++ "```"))
      by now apply opens_payload_app.
    rewrite strip_fence_nonblank; rewrite rstrip_closing_fence.
    + rewrite opening_fence_removed by assumption.
      now rewrite closing_fence_removed.
    + now apply opens_payload_nonempty.
  - replace (before ++ payload ++ after ++ "") with (before ++ payload ++ after)
      by now rewrite append_empty_r.
    unfold strip in Hbody at 1. rewrite strip_commute in Hbody.
    destruct (rstrip (before ++ payload ++ after)) as [| c r] eqn:E.
    + rewrite strip_fence_blank by assumption.
      rewrite <- Hbody. destruct style; reflexivity.
    + rewrite strip_fence_nonblank by (rewrite E; discriminate).
      rewrite opening_fence_removed
        by (apply opens_payload_rstrip; [assumption | rewrite E; discriminate]).
      unfold remove_closing_fence.
      rewrite <- endswith_fence_lstrip, E, Hbody, Hend.
      unfold strip at 1. rewrite strip_commute, <- E, rstrip_idempotent.
      now rewrite E.
Qed.

(** A clean payload with no fence around it is only trimmed. *)
Lemma clean_unfenced (payload : string) :
  clean_payload payload -> clean_response_text payload = strip payload.
Proof.
  intros [Hstart Hend]. unfold clean_response_text, remove_opening_fence.
  assert (Htag : startswith "```json" (strip payload) = false).
  { destruct (strip payload) as [| a [| b [| c s]]]; auto;
      cbn [startswith] in *;
      destruct (Ascii.eqb "`" a), (Ascii.eqb "`" b); auto;
      destruct (Ascii.eqb "`" c); auto; discriminate. }
  rewrite Htag, Hstart. unfold remove_closing_fence. rewrite Hend.
  apply strip_idempotent.
Qed.

(** ** The normaliser *)

Lemma dict_remove_set_same (k : string) (v : json) (d : dict) :
  dict_remove k (dict_set k v d) = dict_remove k d.
Proof.
  induction d as [| [k' v'] d IH]; simpl.
  - now rewrite String.eqb_refl.
  - destruct (k =? k') eqn:E; simpl; rewrite E; congruence.
Qed.

Lemma dict_remove_set_other (k k' : string) (v : json) (d : dict) :
  k <> k' -> dict_remove k (dict_set k' v d) = dict_set k' v (dict_remove k d).
Proof.
  intros Hne. apply String.eqb_neq in Hne.
  induction d as [| [k0 v0] d IH]; simpl.
  - now rewrite Hne.
  - destruct (k' =? k0) eqn:E; simpl.
    + apply String.eqb_eq in E. subst k0. rewrite Hne. simpl.
      now rewrite String.eqb_refl.
    + destruct (k =? k0); simpl; rewrite ?E; congruence.
Qed.

Lemma add_metadata_dict (now : string) (d : dict) :
  add_metadata now (JDict d)
  = (acc <- accuracy_of (py_get_default "confidence_score" (JFloat F64.zero) d) ;;
     Ok (JDict (with_metadata now acc d))).
Proof.
  unfold add_metadata, accuracy_of, with_metadata, py_get_default. cbn [py_setitem bind as_dict].
  rewrite !dict_get_set_other by discriminate.
  destruct (py_mul_100 _) as [scaled |]; cbn [bind]; [| reflexivity].
  destruct (py_round2 scaled); reflexivity.
Qed.

Lemma add_metadata_needs_dict (now : string) (parsed result : json) :
  add_metadata now parsed = Ok result -> exists d, parsed = JDict d.
Proof. destruct parsed; try discriminate. eauto. Qed.

Lemma accuracy_of_number (c : json) :
  is_number c = true -> exists acc, accuracy_of c = Ok acc.
Proof. destruct c; try discriminate; intros _; unfold accuracy_of; simpl; eauto. Qed.


Lemma accuracy_of_default : accuracy_of (JFloat F64.zero) = Ok (JFloat F64.zero).
Proof. reflexivity. Qed.

Lemma with_metadata_other (now : string) (acc : json) (d : dict) (k : string) :
  ~ In k normalizer_keys -> dict_get k (with_metadata now acc d) = dict_get k d.
Proof.
  intros H. unfold with_metadata.
  assert (Hk : k <> "analyzed_at" /\ k <> "model_version" /\ k <> "accuracy_percentage")
    by (repeat split; intros ->; apply H; simpl; auto).
  destruct Hk as (H1 & H2 & H3). now rewrite !dict_get_set_other.
Qed.

Lemma with_metadata_without_timestamp (now : string) (acc : json) (d : dict) :
  dict_remove "analyzed_at" (with_metadata now acc d)
  = dict_set "accuracy_percentage" acc
      (dict_set "model_version" (JStr MODEL_VERSION) (dict_remove "analyzed_at" d)).
Proof.
  unfold with_metadata.
  do 2 (rewrite dict_remove_set_other by discriminate).
  now rewrite dict_remove_set_same.
Qed.

Lemma with_metadata_modulo_timestamp (now now' : string) (acc : json) (d : dict) :
  dict_remove "analyzed_at" (with_metadata now acc d)
  = dict_remove "analyzed_at" (with_metadata now' acc d).
Proof. now rewrite !with_metadata_without_timestamp. Qed.


(** C4, as the code has it. An absent [confidence_score] is read as 0.0 for
    the computation only: [accuracy_percentage] is 0.0 and the record still
    has no [confidence_score]. A number that is present is used as it is,
    inside [0, 1] or not: the record keeps it and [accuracy_percentage] is
    [round(confidence_score * 100, 2)]. *)
Theorem confidence_used_as_given (now : string) (d : dict) :
  number_or_absent "confidence_score" d ->
  exists r,
    add_metadata now (JDict d) = Ok (JDict r)
    /\ dict_get "confidence_score" r = dict_get "confidence_score" d
    /\ match dict_get "confidence_score" d with
       | None => dict_get "accuracy_percentage" r = Some (JFloat F64.zero)
       | Some c => exists acc, accuracy_of c = Ok acc
                               /\ dict_get "accuracy_percentage" r = Some acc
       end.
Proof.
  unfold number_or_absent. intros H. rewrite add_metadata_dict. unfold py_get_default.
  destruct (dict_get "confidence_score" d) as [c |] eqn:Hc.
  - destruct (accuracy_of_number c H) as [acc Hacc]. rewrite Hacc. cbn [bind].
    exists (with_metadata now acc d). split; [reflexivity |]. split.
    + rewrite with_metadata_other; [assumption |]. simpl. intuition discriminate.
    + exists acc. split; [reflexivity | apply dict_get_set_same].
  - rewrite accuracy_of_default. cbn [bind].
    exists (with_metadata now (JFloat F64.zero) d). split; [reflexivity |]. split.
    + rewrite with_metadata_other; [assumption |]. simpl. intuition discriminate.
    + apply dict_get_set_same.
Qed.

Section AnalysisProperties.

Variable json_loads : string -> loads_result.


(** C6. A clean payload gives the same answer, [analyzed_at] apart, whether
    it comes bare or between fences: after a tagged or a bare opening fence,
    with or without a closing fence, with blanks between fences and
    payload. *)
Theorem fences_do_not_matter (now now' : string) (style : fence_style) (closing : bool)
    (before after payload : string) :
  clean_payload payload ->
  all_space before = true ->
  all_space after = true ->
  opens_payload (before ++ payload) ->
  forget_timestamp
    (analyze_prescription json_loads now (fenced style closing before after payload))
  = forget_timestamp (analyze_prescription json_loads now' payload).
Proof.
  intros Hclean Hb Ha Hopen. unfold analyze_prescription.
  rewrite (clean_fenced style closing before after payload Hclean Hb Ha Hopen).
  rewrite (clean_unfenced payload Hclean).
  destruct (json_loads (strip payload)) as [parsed | msg | e]; try reflexivity.
  destruct parsed; try reflexivity.
  rewrite !add_metadata_dict.
  destruct (accuracy_of _) as [acc |]; cbn [bind forget_timestamp]; [| reflexivity].
  now rewrite (with_metadata_modulo_timestamp now now').
Qed.


(** C10. A record that is produced comes from a parsed object; it holds each
    key of that object with its value, and no other key, the three keys of
    the normaliser apart: these hold the clock's reading, the model's name
    and the recomputed accuracy, whatever the object held there. *)
Theorem payload_keys_preserved (now text : string) (result : json) :
  analyze_prescription json_loads now text = Analyzed result ->
  exists d r acc,
    json_loads (clean_response_text text) = Loaded (JDict d)
    /\ result = JDict r
    /\ (forall k, ~ In k normalizer_keys -> dict_get k r = dict_get k d)
    /\ dict_get "analyzed_at" r = Some (JStr now)
    /\ dict_get "model_version" r = Some (JStr MODEL_VERSION)
    /\ accuracy_of (py_get_default "confidence_score" (JFloat F64.zero) d) = Ok acc
    /\ dict_get "accuracy_percentage" r = Some acc.
Proof.
  unfold analyze_prescription.
  destruct (json_loads (clean_response_text text)) as [parsed | msg | e]; try discriminate.
  destruct (add_metadata now parsed) as [res |] eqn:E; [| discriminate].
  intros H. injection H as <-.
  destruct (add_metadata_needs_dict now parsed res E) as [d ->].
  rewrite add_metadata_dict in E.
  destruct (accuracy_of _) as [acc |] eqn:Hacc; cbn [bind] in E; [| discriminate].
  injection E as <-.
  exists d, (with_metadata now acc d), acc. repeat split; auto.
  - intros k Hk. now apply with_metadata_other.
  - unfold with_metadata.
    rewrite !dict_get_set_other by discriminate. apply dict_get_set_same.
  - unfold with_metadata.
    rewrite dict_get_set_other by discriminate. apply dict_get_set_same.
  - apply dict_get_set_same.
Qed.

End AnalysisProperties.

(** * The scenarios, run *)

(** The model's literals are the floats Python reads: 0.85 is the float
    nearest to 85/100, and 100 converts exactly. *)
Example literal_0_85 :
  F64.div (S754_finite false 85 0) (S754_finite false 100 0) = F64.lit_0_85
  /\ F64.of_Z 100 = F64.hundred
  /\ F64.of_Z 1 = F64.one.
Proof. repeat split; reflexivity. Qed.

(** [round(2.675, 2)] is 2.67 and [round(0.125, 2)] is 0.12, as in Python. *)
Example round2_examples :
  F64.round2 (S754_finite false 6023564501608038 (-51))
  = S754_finite false 6012305502539612 (-51)
  /\ F64.round2 (S754_finite false 4503599627370496 (-55))
     = F64.div (S754_finite false 12 0) (S754_finite false 100 0).
Proof. split; reflexivity. Qed.

(** Scenario B: a missing dosage and a low confidence are warnings only. *)
Example scenario_B :
  validate_prescription Reference.py_str Reference.scenario_B_record
  = Validated {| is_valid := true;
                 warnings := ["Dosage missing for Amoxicillin";
                              "Low confidence score - manual review recommended"];
                 errors := [] |}.
Proof. reflexivity. Qed.

(** Scenario A's text is its payload between a tagged fence and a closing
    fence, each on a line of its own; the reference reader reads the payload
    as Python does. *)
Example scenario_A_shape :
  fenced TaggedFence true Reference.nl Reference.nl Reference.scenario_A_payload
  = Reference.scenario_A_text
  /\ Reference.json_loads Reference.scenario_A_payload
     = Loaded (JDict Reference.scenario_A_parsed).
Proof. split; reflexivity. Qed.



Lemma is_valid_false_iff_errors_witness :
  validate_prescription Reference.py_str (JDict [])
  = Validated {| is_valid := false;
                 warnings := ["Patient name is missing"; "Doctor name is missing";
                              "Low confidence score - manual review recommended"];
                 errors := ["No medications found"] |}
  /\ (false = false <-> ["No medications found"] <> ([] : list string)).
Proof.
  split; [reflexivity |].
  apply (is_valid_false_iff_errors Reference.py_str (JDict [])
           {| is_valid := false;
              warnings := ["Patient name is missing"; "Doctor name is missing";
                           "Low confidence score - manual review recommended"];
              errors := ["No medications found"] |}).
  reflexivity.
Defined.

(** C3 does not hold as stated: a record with both names, a confidence of
    0.9 and an empty list of medications meets its conditions (nothing is
    asked of the elements of an empty list) and is invalid. *)
Lemma complete_record_without_medications_invalid :
  complete_record Reference.record_without_medications []
  /\ validate_prescription Reference.py_str (JDict Reference.record_without_medications)
     = Validated {| is_valid := false; warnings := [];
                    errors := ["No medications found"] |}.
Proof.
  split; [| reflexivity].
  repeat split.
  - exists "Jane". split; [reflexivity | discriminate].
  - exists "Dr. X". split; [reflexivity | discriminate].
  - constructor.
  - exists (JFloat Reference.f_0_9). split; reflexivity.
Qed.

Lemma complete_example_is_complete :
  complete_record Reference.complete_example Reference.one_medication.
Proof.
  repeat split.
  - exists "Jane". split; [reflexivity | discriminate].
  - exists "Dr. X". split; [reflexivity | discriminate].
  - constructor; [| constructor].
    eexists. split; [reflexivity |]. split.
    + exists "Amoxicillin". split; [reflexivity | discriminate].
    + exists "500 mg". split; [reflexivity | discriminate].
  - exists (JFloat Reference.f_0_9). split; reflexivity.
Defined.

Lemma complete_record_is_valid_witness :
  complete_record Reference.complete_example Reference.one_medication
  /\ Reference.one_medication <> []
  /\ validate_prescription Reference.py_str (JDict Reference.complete_example)
     = Validated {| is_valid := true; warnings := []; errors := [] |}.
Proof.
  split; [exact complete_example_is_complete |]. split; [discriminate |].
  apply (complete_record_is_valid Reference.py_str Reference.complete_example
           Reference.one_medication);
    [exact complete_example_is_complete | discriminate].
Defined.

(** C4 does not hold as stated: a confidence of 1.5 is out of range; the
    record keeps it and its [accuracy_percentage] is 150.0, not 0.0. *)
Lemma out_of_range_confidence_is_kept :
  in_unit_interval (JFloat Reference.f_1_5) = false
  /\ add_metadata Reference.a_timestamp (JDict Reference.out_of_range_payload)
     = Ok (JDict [("confidence_score", JFloat Reference.f_1_5);
                  ("analyzed_at", JStr Reference.a_timestamp);
                  ("model_version", JStr "gemini-1.5-flash");
                  ("accuracy_percentage", JFloat Reference.f_150)])
  /\ F64.of_Z 150 = Reference.f_150.
Proof. repeat split; reflexivity. Qed.

Lemma confidence_used_as_given_witness :
  number_or_absent "confidence_score" Reference.out_of_range_payload
  /\ exists r,
       add_metadata Reference.a_timestamp (JDict Reference.out_of_range_payload)
       = Ok (JDict r)
       /\ dict_get "confidence_score" r
          = dict_get "confidence_score" Reference.out_of_range_payload
       /\ match dict_get "confidence_score" Reference.out_of_range_payload with
          | None => dict_get "accuracy_percentage" r = Some (JFloat F64.zero)
          | Some c => exists acc, accuracy_of c = Ok acc
                                  /\ dict_get "accuracy_percentage" r = Some acc
          end.
Proof.
  split; [reflexivity |].
  apply (confidence_used_as_given Reference.a_timestamp Reference.out_of_range_payload).
  reflexivity.
Defined.


Lemma scenario_A_payload_is_clean :
  clean_payload Reference.scenario_A_payload
  /\ all_space Reference.nl = true
  /\ opens_payload (Reference.nl ++ Reference.scenario_A_payload).
Proof.
  split; [split; reflexivity |]. split; [reflexivity |].
  eexists; eexists. split; [reflexivity |]. split; discriminate.
Defined.

Lemma fences_do_not_matter_witness :
  clean_payload Reference.scenario_A_payload
  /\ all_space Reference.nl = true
  /\ opens_payload (Reference.nl ++ Reference.scenario_A_payload)
  /\ forget_timestamp
       (analyze_prescription Reference.json_loads Reference.a_timestamp
          (fenced TaggedFence true Reference.nl Reference.nl Reference.scenario_A_payload))
     = forget_timestamp
         (analyze_prescription Reference.json_loads Reference.another_timestamp
            Reference.scenario_A_payload).
Proof.
  destruct scenario_A_payload_is_clean as (Hclean & Hspace & Hopen).
  split; [exact Hclean |]. split; [exact Hspace |]. split; [exact Hopen |].
  apply (fences_do_not_matter Reference.json_loads Reference.a_timestamp
           Reference.another_timestamp TaggedFence true Reference.nl Reference.nl
           Reference.scenario_A_payload Hclean Hspace Hspace Hopen).
Defined.

Lemma validate_answers_on_records_witness :
  record_shaped Reference.complete_example
  /\ exists vr,
       validate_prescription Reference.py_str (JDict Reference.complete_example)
       = Validated vr.
Proof.
  assert (H : record_shaped Reference.complete_example).
  { split; [reflexivity |]. simpl. constructor; [eexists; reflexivity | constructor]. }
  split; [exact H |].
  apply (validate_answers_on_records Reference.py_str Reference.complete_example H).
Defined.

Lemma empty_medications_one_error_witness :
  dict_get "medications" Reference.record_without_medications = Some (JList [])
  /\ number_or_absent "confidence_score" Reference.record_without_medications
  /\ exists vr,
       validate_prescription Reference.py_str (JDict Reference.record_without_medications)
       = Validated vr
       /\ is_valid vr = false
       /\ errors vr = ["No medications found"].
Proof.
  split; [reflexivity |]. split; [reflexivity |].
  apply (empty_medications_one_error Reference.py_str Reference.record_without_medications);
    reflexivity.
Defined.


Lemma record_no_key_agrees (k : string) :
  k <> "medications" ->
  dict_get k Reference.record_no_key = dict_get k Reference.record_empty_list.
Proof.
  intros Hk. simpl. destruct (k =? "patient_name"); [reflexivity |].
  destruct (k =? "medications") eqn:E; [| reflexivity].
  apply String.eqb_eq in E. contradiction.
Defined.

Lemma absent_field_as_empty_witness :
  In ("medications", JList []) fields_with_empty_value
  /\ dict_get "medications" Reference.record_no_key = None
  /\ dict_get "medications" Reference.record_empty_list = Some (JList [])
  /\ validate_prescription Reference.py_str (JDict Reference.record_no_key)
     = validate_prescription Reference.py_str (JDict Reference.record_empty_list).
Proof.
  split; [left; reflexivity |]. split; [reflexivity |]. split; [reflexivity |].
  apply (absent_field_as_empty Reference.py_str "medications" (JList [])
           Reference.record_no_key Reference.record_empty_list);
    [left; reflexivity | exact record_no_key_agrees | reflexivity | reflexivity].
Defined.

Lemma payload_keys_preserved_witness :
  analyze_prescription Reference.json_loads Reference.a_timestamp Reference.scenario_A_text
  = Analyzed (JDict (Reference.scenario_A_record Reference.a_timestamp))
  /\ exists d r acc,
       Reference.json_loads (clean_response_text Reference.scenario_A_text)
       = Loaded (JDict d)
       /\ JDict (Reference.scenario_A_record Reference.a_timestamp) = JDict r
       /\ (forall k, ~ In k normalizer_keys -> dict_get k r = dict_get k d)
       /\ dict_get "analyzed_at" r = Some (JStr Reference.a_timestamp)
       /\ dict_get "model_version" r = Some (JStr MODEL_VERSION)
       /\ accuracy_of (py_get_default "confidence_score" (JFloat F64.zero) d) = Ok acc
       /\ dict_get "accuracy_percentage" r = Some acc.
Proof.
  split; [reflexivity |].
  apply (payload_keys_preserved Reference.json_loads Reference.a_timestamp
           Reference.scenario_A_text
           (JDict (Reference.scenario_A_record Reference.a_timestamp))).
  reflexivity.
Defined.

(** * Further properties of the rule engine *)

Section MoreValidationProperties.

Variable py_str : json -> string.

Lemma check_medication_object (m : dict) (vr : validation_results) :
  check_medication py_str (JDict m) vr
  = Ok {| is_valid := is_valid vr && truthy (py_get "name" m);
          warnings := (warnings vr ++ dosage_warnings py_str [m])%list;
          errors := (errors vr ++ name_errors [m])%list |}.
Proof.
  unfold check_medication, dosage_warnings, name_errors. cbn [as_dict bind flat_map].
  destruct vr as [v ws es].
  destruct (truthy (py_get "name" m)), (truthy (py_get "dosage" m));
    cbn [negb append_warning append_error set_invalid is_valid warnings errors];
    rewrite ?app_nil_r, ?andb_true_r, ?andb_false_r; reflexivity.
Qed.

Lemma check_medications_closed (entries : list dict) :
  forall vr,
    check_medications py_str (map JDict entries) vr
    = Ok {| is_valid := is_valid vr && all_named entries;
            warnings := (warnings vr ++ dosage_warnings py_str entries)%list;
            errors := (errors vr ++ name_errors entries)%list |}.
Proof.
  induction entries as [| m rest IH]; intros vr.
  - destruct vr. cbn. now rewrite andb_true_r, !app_nil_r.
  - cbn [map check_medications]. rewrite check_medication_object. cbn [bind].
    rewrite IH. cbn [is_valid warnings errors].
    unfold all_named, dosage_warnings, name_errors. cbn [forallb flat_map].
    now rewrite andb_assoc, !app_nil_r, <- !app_assoc.
Qed.

Lemma medications_missing_objects (d : dict) (entries : list dict) :
  py_get_default "medications" (JList []) d = JList (map JDict entries) ->
  medications_missing d = Ok (is_empty entries).
Proof.
  unfold py_get_default, medications_missing, py_get, py_getitem.
  destruct (dict_get "medications" d) as [v |].
  - intros ->. destruct entries; reflexivity.
  - intros H. destruct entries; [reflexivity | discriminate].
Qed.

Lemma validation_rules_closed (d : dict) (entries : list dict) (low : bool) :
  py_get_default "medications" (JList []) d = JList (map JDict entries) ->
  py_lt_float (py_get_default "confidence_score" (JInt 0) d) F64.lit_0_85 = Ok low ->
  validation_rules py_str (JDict d) = Ok (expected_results py_str d entries low).
Proof.
  intros Hmeds Hlow. unfold validation_rules. cbn [as_dict bind].
  unfold check_medications_present. rewrite (medications_missing_objects d entries Hmeds).
  cbn [bind]. rewrite Hmeds. cbn [py_iter bind].
  rewrite check_medications_closed. cbn [bind].
  unfold check_confidence. rewrite Hlow. cbn [bind].
  unfold expected_results, check_name. f_equal.
  destruct (truthy (py_get "patient_name" d)), (truthy (py_get "doctor_name" d)),
    (is_empty entries), low;
    cbn [negb append_warning append_error set_invalid initial_results
           is_valid warnings errors andb app];
    rewrite ?app_nil_r; reflexivity.
Qed.

(** X2. All rules run and report in the order of the code. For a body whose
    medications are objects and whose confidence can be compared: the
    warnings are the patient-name and doctor-name warnings, then one dosage
    warning per entry without a dosage in list order, then the
    low-confidence warning; the errors are "No medications found" for an
    empty or absent list, then one "Medication name missing" per entry
    without a name; the record is valid exactly when the list is not empty
    and every entry has a name. *)
Theorem validation_messages_in_order (d : dict) (entries : list dict) (low : bool) :
  py_get_default "medications" (JList []) d = JList (map JDict entries) ->
  py_lt_float (py_get_default "confidence_score" (JInt 0) d) F64.lit_0_85 = Ok low ->
  validate_prescription py_str (JDict d)
  = Validated (expected_results py_str d entries low).
Proof.
  intros Hmeds Hlow. unfold validate_prescription.
  now rewrite (validation_rules_closed d entries low Hmeds Hlow).
Qed.

Lemma name_errors_length (entries : list dict) :
  List.length (name_errors entries) <= List.length entries.
Proof.
  induction entries as [| m rest IH]; simpl; auto.
  destruct (truthy (py_get "name" m)); simpl; lia.
Qed.

Lemma dosage_warnings_length (entries : list dict) :
  List.length (dosage_warnings py_str entries) <= List.length entries.
Proof.
  induction entries as [| m rest IH]; simpl; auto.
  destruct (truthy (py_get "dosage" m)); simpl; lia.
Qed.

(** X3. The lists stay small: with [n] medication objects there are at most
    [n + 1] errors and at most [n + 3] warnings. *)
Theorem validation_messages_bounded (d : dict) (entries : list dict) (vr : validation_results) :
  py_get_default "medications" (JList []) d = JList (map JDict entries) ->
  validate_prescription py_str (JDict d) = Validated vr ->
  List.length (errors vr) <= List.length entries + 1
  /\ List.length (warnings vr) <= List.length entries + 3.
Proof.
  intros Hmeds. unfold validate_prescription.
  destruct (validation_rules py_str (JDict d)) as [vr0 |] eqn:E; [| discriminate].
  intros H. injection H as <-.
  assert (Hlow : exists low,
             py_lt_float (py_get_default "confidence_score" (JInt 0) d) F64.lit_0_85 = Ok low).
  { revert E. unfold validation_rules. cbn [as_dict bind].
    destruct (check_medications_present d _) as [vr1 |]; cbn [bind]; [| discriminate].
    destruct (py_iter _) as [meds |]; cbn [bind]; [| discriminate].
    destruct (check_medications py_str meds vr1) as [vr2 |]; cbn [bind]; [| discriminate].
    unfold check_confidence. destruct (py_lt_float _ _) as [low |]; [eauto | discriminate]. }
  destruct Hlow as [low Hlow].
  rewrite (validation_rules_closed d entries low Hmeds Hlow) in E. injection E as <-.
  cbn [expected_results errors warnings]. rewrite !List.length_app.
  pose proof (name_errors_length entries). pose proof (dosage_warnings_length entries).
  destruct (is_empty entries), (truthy (py_get "patient_name" d)),
    (truthy (py_get "doctor_name" d)), low; cbn [List.length]; lia.
Qed.

Lemma check_medications_objects (meds : list json) :
  forall vr vr', check_medications py_str meds vr = Ok vr' -> Forall is_object meds.
Proof.
  induction meds as [| med rest IH]; intros vr vr'; [constructor |].
  cbn [check_medications].
  destruct (check_medication py_str med vr) as [vr1 |] eqn:E; cbn [bind]; [| discriminate].
  intros H. constructor; [| eauto].
  destruct med; try discriminate. now exists d.
Qed.

Lemma check_medications_total (meds : list json) :
  Forall is_object meds -> forall vr, exists vr', check_medications py_str meds vr = Ok vr'.
Proof.
  induction 1 as [| med rest [m ->] _ IH]; intros vr; cbn [check_medications]; [eauto |].
  rewrite check_medication_object. cbn [bind]. apply IH.
Qed.

(** The medications stage: lines 168-179. *)
Lemma medications_stage_fit (d : dict) (vr vr' : validation_results) :
  (vr1 <- check_medications_present d vr ;;
   meds <- py_iter (py_get_default "medications" (JList []) d) ;;
   check_medications py_str meds vr1) = Ok vr' ->
  medications_fit (dict_get "medications" d).
Proof.
  unfold check_medications_present, medications_missing, py_get, py_getitem, py_get_default.
  destruct (dict_get "medications" d) as [v |]; [| exact (fun _ => I)].
  destruct v as [| b | z | f | s | l | m]; cbn [medications_fit].
  - discriminate.
  - destruct b; discriminate.
  - cbn [truthy]. destruct (negb (negb (z =? 0)%Z)); discriminate.
  - cbn [truthy]. destruct (negb (negb (F64.is_zero f))); discriminate.
  - destruct s as [| c s]; [reflexivity | discriminate].
  - destruct l as [| med rest]; [constructor |].
    cbn [truthy negb py_len bind List.length Nat.eqb py_iter].
    apply check_medications_objects.
  - destruct m as [| kv rest]; [reflexivity | discriminate].
Qed.

Lemma medications_stage_total (d : dict) (vr : validation_results) :
  medications_fit (dict_get "medications" d) ->
  exists vr',
    (vr1 <- check_medications_present d vr ;;
     meds <- py_iter (py_get_default "medications" (JList []) d) ;;
     check_medications py_str meds vr1) = Ok vr'.
Proof.
  unfold check_medications_present, medications_missing, py_get, py_getitem, py_get_default.
  destruct (dict_get "medications" d) as [v |]; [| cbn; eauto].
  destruct v as [| b | z | f | s | l | m]; cbn [medications_fit]; try contradiction.
  - intros ->. cbn. eauto.
  - intros H. destruct l as [| med rest]; [cbn; eauto |].
    cbn [truthy negb py_len bind List.length Nat.eqb py_iter].
    now apply check_medications_total.
  - intros ->. cbn. eauto.
Qed.

Lemma check_confidence_number (d : dict) (vr vr' : validation_results) :
  check_confidence d vr = Ok vr' -> number_or_absent "confidence_score" d.
Proof.
  unfold check_confidence, number_or_absent, py_get_default.
  destruct (dict_get "confidence_score" d) as [c |]; [| exact (fun _ => I)].
  destruct c; try discriminate; reflexivity.
Qed.

(** X4. When the rule engine answers. It answers 200 with a validation
    result exactly for a body that is an object, whose [medications] is
    absent, a list of objects, an empty string or an empty object, and whose
    [confidence_score] is absent or a number; for every other body it
    raises and answers 500. *)
Theorem validate_answers_exactly_when (body : json) :
  (exists vr, validate_prescription py_str body = Validated vr)
  <-> (exists d, body = JDict d
                 /\ medications_fit (dict_get "medications" d)
                 /\ number_or_absent "confidence_score" d).
Proof.
  unfold validate_prescription. split.
  - intros [vr H].
    destruct (validation_rules py_str body) as [vr0 |] eqn:E; [| discriminate].
    destruct body as [| | | | | | d]; try discriminate. exists d. split; [reflexivity |].
    unfold validation_rules in E. cbn [as_dict bind] in E.
    set (vr1 := check_name "doctor_name" _ _ _) in E. clearbody vr1.
    destruct (vr2 <- check_medications_present d vr1 ;;
              meds <- py_iter (py_get_default "medications" (JList []) d) ;;
              check_medications py_str meds vr2) as [vr3 |] eqn:Estage.
    + split; [eapply medications_stage_fit; exact Estage |].
      revert E Estage.
      destruct (check_medications_present d vr1) as [vr2 |]; cbn [bind]; [| discriminate].
      destruct (py_iter _) as [meds |]; cbn [bind]; [| discriminate].
      intros E Estage. rewrite Estage in E. cbn [bind] in E.
      eapply check_confidence_number; exact E.
    + exfalso. revert E Estage.
      destruct (check_medications_present d vr1) as [vr2 |]; cbn [bind]; [| discriminate].
      destruct (py_iter _) as [meds |]; cbn [bind]; [| discriminate].
      intros E Estage. rewrite Estage in E. discriminate.
  - intros (d & -> & Hfit & Hnum).
    unfold validation_rules. cbn [as_dict bind].
    set (vr1 := check_name "doctor_name" _ _ _). clearbody vr1.
    destruct (medications_stage_total d vr1 Hfit) as [vr3 Hstage]. revert Hstage.
    destruct (check_medications_present d vr1) as [vr2 |]; cbn [bind]; [| discriminate].
    destruct (py_iter _) as [meds |]; cbn [bind]; [| discriminate].
    intros ->. cbn [bind].
    destruct (check_confidence_frame d vr3 Hnum) as (vr4 & -> & _). eauto.
Qed.

(** X5. A [medications] that is null, a boolean or a number makes the
    handler raise [TypeError] (a 500), whereas an absent key is read as an
    empty list. *)
Theorem scalar_medications_raise (d : dict) (v : json) :
  dict_get "medications" d = Some v ->
  is_scalar v = true ->
  validate_prescription py_str (JDict d) = ValidationFailed TypeError.
Proof.
  intros Hv Hs. unfold validate_prescription, validation_rules. cbn [as_dict bind].
  unfold check_medications_present, medications_missing, py_get, py_getitem, py_get_default.
  rewrite Hv.
  destruct v as [| b | z | f | s | l | m]; try discriminate.
  - reflexivity.
  - destruct b; reflexivity.
  - cbn [truthy]. destruct (negb (negb (z =? 0)%Z)); reflexivity.
  - cbn [truthy]. destruct (negb (negb (F64.is_zero f))); reflexivity.
Qed.

(** X6. The rule engine reads four keys and nothing else: two bodies that
    agree on [patient_name], [doctor_name], [medications] and
    [confidence_score] get the same answer, whatever else they hold. *)
Theorem validation_reads_four_keys (d d' : dict) :
  (forall k, In k validation_keys -> dict_get k d = dict_get k d') ->
  validate_prescription py_str (JDict d) = validate_prescription py_str (JDict d').
Proof.
  intros H. unfold validate_prescription.
  enough (E : validation_rules py_str (JDict d) = validation_rules py_str (JDict d'))
    by now rewrite E.
  apply validation_rules_ext;
    unfold medications_missing, py_get, py_getitem, py_get_default;
    rewrite ?(H "patient_name"), ?(H "doctor_name"), ?(H "medications"),
      ?(H "confidence_score");
    try reflexivity; simpl; auto.
Qed.

Lemma check_medication_verdict (med : json) (vr vr' vr1 vr1' : validation_results) :
  is_valid vr = is_valid vr' -> errors vr = errors vr' ->
  check_medication py_str med vr = Ok vr1 ->
  check_medication py_str med vr' = Ok vr1' ->
  is_valid vr1 = is_valid vr1' /\ errors vr1 = errors vr1'.
Proof.
  intros Hv He. destruct med; try discriminate.
  rewrite !check_medication_object. intros H H'.
  injection H as <-. injection H' as <-. cbn [is_valid errors]. now rewrite Hv, He.
Qed.

Lemma check_medications_verdict (meds : list json) :
  forall vr vr' vr1 vr1',
    is_valid vr = is_valid vr' -> errors vr = errors vr' ->
    check_medications py_str meds vr = Ok vr1 ->
    check_medications py_str meds vr' = Ok vr1' ->
    is_valid vr1 = is_valid vr1' /\ errors vr1 = errors vr1'.
Proof.
  induction meds as [| med rest IH]; intros vr vr' vr1 vr1' Hv He; cbn [check_medications].
  - intros H H'. injection H as <-. injection H' as <-. auto.
  - destruct (check_medication py_str med vr) as [vr2 |] eqn:E; cbn [bind]; [| discriminate].
    destruct (check_medication py_str med vr') as [vr2' |] eqn:E'; cbn [bind]; [| discriminate].
    destruct (check_medication_verdict med vr vr' vr2 vr2' Hv He E E') as [Hv2 He2].
    now apply IH.
Qed.

Lemma check_confidence_verdict (d : dict) (vr vr' : validation_results) :
  check_confidence d vr = Ok vr' ->
  is_valid vr' = is_valid vr /\ errors vr' = errors vr.
Proof.
  unfold check_confidence. destruct (py_lt_float _ _) as [low |]; cbn [bind]; [| discriminate].
  intros H. injection H as <-. destruct low; auto.
Qed.

(** X7. The verdict comes from the medications alone: two bodies with the
    same [medications] get the same [is_valid] and the same [errors],
    whatever their names and confidence are. *)
Theorem verdict_depends_on_medications (d d' : dict) (vr vr' : validation_results) :
  dict_get "medications" d = dict_get "medications" d' ->
  validate_prescription py_str (JDict d) = Validated vr ->
  validate_prescription py_str (JDict d') = Validated vr' ->
  is_valid vr = is_valid vr' /\ errors vr = errors vr'.
Proof.
  intros Hmeds. unfold validate_prescription.
  destruct (validation_rules py_str (JDict d)) as [r |] eqn:E; [| discriminate].
  destruct (validation_rules py_str (JDict d')) as [r' |] eqn:E'; [| discriminate].
  intros H H'. injection H as <-. injection H' as <-.
  unfold validation_rules in E, E'. cbn [as_dict bind] in E, E'.
  set (vr0 := check_name "doctor_name" _ d _) in E.
  set (vr0' := check_name "doctor_name" _ d' _) in E'.
  assert (H0 : is_valid vr0 = is_valid vr0' /\ errors vr0 = errors vr0').
  { subst vr0 vr0'.
    rewrite !(proj1 (check_name_frame _ _ _ _)), !(proj2 (check_name_frame _ _ _ _)).
    auto. }
  clearbody vr0 vr0'. destruct H0 as [Hv He].
  unfold check_medications_present in E, E'.
  assert (Hmiss : medications_missing d = medications_missing d')
    by (unfold medications_missing, py_get, py_getitem; now rewrite Hmeds).
  assert (Hiter : py_get_default "medications" (JList []) d
                  = py_get_default "medications" (JList []) d')
    by (unfold py_get_default; now rewrite Hmeds).
  rewrite Hmiss, Hiter in E.
  destruct (medications_missing d') as [missing |]; cbn [bind] in E, E'; [| discriminate].
  destruct (py_iter _) as [meds |]; cbn [bind] in E, E'; [| discriminate].
  destruct (check_medications py_str meds _) as [vr2 |] eqn:E2 in E;
    cbn [bind] in E; [| discriminate].
  destruct (check_medications py_str meds _) as [vr2' |] eqn:E2' in E';
    cbn [bind] in E'; [| discriminate].
  assert (H2 : is_valid vr2 = is_valid vr2' /\ errors vr2 = errors vr2').
  { eapply check_medications_verdict; [| | exact E2 | exact E2'];
      destruct missing; cbn [set_invalid append_error is_valid errors]; congruence. }
  apply check_confidence_verdict in E, E'. destruct H2, E, E'. split; congruence.
Qed.

Lemma Z_ltb_0_85 (z : Z) : F64.Z_ltb z F64.lit_0_85 = (z <=? 0)%Z.
Proof.
  unfold F64.Z_ltb, F64.lit_0_85.
  change (0 <=? -53)%Z with false. cbv iota.
  change (2 ^ (- (-53)))%Z with 9007199254740992%Z.
  destruct (Z.ltb_spec (z * 9007199254740992) 7656119366529843),
    (Z.leb_spec z 0); try reflexivity; lia.
Qed.

(** X8. An integer confidence is compared exactly, and an absent one counts
    as 0: with [confidence_score] absent or an integer [z], the
    low-confidence warning is given exactly when the key is absent or
    [z <= 0]; so 1 passes, and 0 warns. *)
Theorem integer_confidence_threshold (d : dict) (entries : list dict) (confidence : option Z) :
  py_get_default "medications" (JList []) d = JList (map JDict entries) ->
  dict_get "confidence_score" d = option_map JInt confidence ->
  validate_prescription py_str (JDict d)
  = Validated (expected_results py_str d entries
                 match confidence with
                 | Some z => (z <=? 0)%Z
                 | None => true
                 end).
Proof.
  intros Hmeds Hc. unfold validate_prescription.
  rewrite (validation_rules_closed d entries
             match confidence with Some z => (z <=? 0)%Z | None => true end Hmeds);
    [reflexivity |].
  unfold py_get_default. rewrite Hc.
  destruct confidence as [z |]; cbn [option_map py_lt_float]; [| reflexivity].
  now rewrite Z_ltb_0_85.
Qed.

End MoreValidationProperties.

(** * Further properties of the normaliser *)

Lemma part_of_refl (s : string) : part_of s s.
Proof. exists "", "". simpl. now rewrite append_empty_r. Qed.

Lemma part_of_trans (r t s : string) : part_of r t -> part_of t s -> part_of r s.
Proof.
  intros (a & b & ->) (a' & b' & ->). exists (a' ++ a), (b ++ b').
  now rewrite !append_assoc.
Qed.

Lemma lstrip_part (s : string) : part_of (lstrip s) s.
Proof.
  induction s as [| c s IH]; [apply part_of_refl |].
  cbn [lstrip]. destruct (is_space c); [| apply part_of_refl].
  destruct IH as (a & b & E). exists (String c a), b. simpl. now rewrite <- E.
Qed.

Lemma rstrip_prefix (s : string) : exists b, s = rstrip s ++ b.
Proof.
  induction s as [| c s [b IH]]; [exists ""; reflexivity |].
  cbn [rstrip]. destruct (rstrip s) as [| c' r].
  - destruct (is_space c); [exists (String c s) | exists s]; reflexivity.
  - exists b. simpl in *. now rewrite <- IH.
Qed.

Lemma rstrip_part (s : string) : part_of (rstrip s) s.
Proof. destruct (rstrip_prefix s) as [b E]. exists "", b. exact E. Qed.

Lemma slice_from_part (n : nat) (s : string) : part_of (slice_from n s) s.
Proof.
  revert s. induction n as [| n IH]; intros s; [destruct s; apply part_of_refl |].
  destruct s as [| c s]; [apply part_of_refl |]. cbn [slice_from].
  destruct (IH s) as (a & b & E). exists (String c a), b. simpl. now rewrite <- E.
Qed.

Lemma take_prefix (n : nat) (s : string) : exists b, s = take n s ++ b.
Proof.
  revert s. induction n as [| n IH]; intros s; [exists s; destruct s; reflexivity |].
  destruct s as [| c s]; [exists ""; reflexivity |].
  destruct (IH s) as [b E]. exists b. simpl. now rewrite <- E.
Qed.

Lemma take_part (n : nat) (s : string) : part_of (take n s) s.
Proof. destruct (take_prefix n s) as [b E]. exists "", b. exact E. Qed.

Lemma strip_part (s : string) : part_of (strip s) s.
Proof. eapply part_of_trans; [apply rstrip_part | apply lstrip_part]. Qed.

(** X9. The text given to [json.loads], and returned as [raw_response]
    when it does not parse, is a contiguous part of the response (cleaning
    only removes text at the two ends) with no blank at either end. *)
Theorem cleaned_text_is_trimmed_part (text : string) :
  part_of (clean_response_text text) text
  /\ strip (clean_response_text text) = clean_response_text text.
Proof.
  split; [| apply strip_idempotent].
  unfold clean_response_text.
  eapply part_of_trans; [apply strip_part |].
  eapply part_of_trans; [| apply strip_part].
  eapply part_of_trans.
  - unfold remove_closing_fence. destruct (endswith _ _); [apply take_part | apply part_of_refl].
  - unfold remove_opening_fence.
    destruct (startswith "```json" (strip text)).
    + eapply part_of_trans; [| apply slice_from_part].
      destruct (startswith _ _); [apply slice_from_part | apply part_of_refl].
    + destruct (startswith _ _); [apply slice_from_part | apply part_of_refl].
Qed.


Lemma accuracy_of_other (c : json) : is_number c = false -> accuracy_of c = Raise TypeError.
Proof. destruct c; try discriminate; reflexivity. Qed.


Lemma add_metadata_unfit (now : string) (parsed : json) :
  ~ fit_payload parsed -> add_metadata now parsed = Raise TypeError.
Proof.
  intros H. destruct parsed as [| | | | | | d]; try reflexivity.
  rewrite add_metadata_dict. unfold py_get_default.
  destruct (dict_get "confidence_score" d) as [c |] eqn:Ec.
  - destruct (is_number c) eqn:En.
    + exfalso. apply H. exists d. split; [reflexivity |].
      unfold number_or_absent. now rewrite Ec.
    + now rewrite accuracy_of_other.
  - exfalso. apply H. exists d. split; [reflexivity |].
    unfold number_or_absent. now rewrite Ec.
Qed.




Section MoreAnalysisProperties.

Variable json_loads : string -> loads_result.



(** X12. Valid JSON of the wrong shape is not reported as a parse failure:
    when the cleaned text parses to a value that is no object, or to an
    object whose [confidence_score] is not a number, the handler answers
    with the general 500 ([TypeError]), which carries no [raw_response]. *)
Theorem unfit_payload_is_a_general_failure (now text : string) (parsed : json) :
  json_loads (clean_response_text text) = Loaded parsed ->
  ~ fit_payload parsed ->
  analyze_prescription json_loads now text = AnalysisFailed TypeError.
Proof.
  intros Hload Hfit. unfold analyze_prescription.
  now rewrite Hload, (add_metadata_unfit now parsed Hfit).
Qed.

(** X13. The normaliser's fields do not change the verdict: the record that
    [/analyze] produces gets from [/validate] the answer that the parsed
    payload itself would get. *)
Theorem analyzed_record_validates_like_payload
    (py_str : json -> string) (now text : string) (result : json) :
  analyze_prescription json_loads now text = Analyzed result ->
  exists parsed,
    json_loads (clean_response_text text) = Loaded parsed
    /\ validate_prescription py_str result = validate_prescription py_str parsed.
Proof.
  unfold analyze_prescription.
  destruct (json_loads (clean_response_text text)) as [parsed | |]; try discriminate.
  destruct (add_metadata now parsed) as [res |] eqn:E; [| discriminate].
  intros H. injection H as <-. exists parsed. split; [reflexivity |].
  destruct (add_metadata_needs_dict now parsed res E) as [d ->].
  rewrite add_metadata_dict in E.
  destruct (accuracy_of _) as [acc |]; cbn [bind] in E; [| discriminate].
  injection E as <-. unfold validate_prescription.
  enough (Hr : validation_rules py_str (JDict (with_metadata now acc d))
               = validation_rules py_str (JDict d)) by now rewrite Hr.
  apply validation_rules_ext;
    unfold medications_missing, py_get, py_getitem, py_get_default;
    rewrite !with_metadata_other; try reflexivity;
    simpl; intuition discriminate.
Qed.

End MoreAnalysisProperties.

(** * The whole handler *)

Section HandlerProperties.

Variable json_loads : string -> loads_result.
Variable image : Type.
Variable image_open : string -> outcome image.
Variable generate_content : image -> outcome string.


(** X15. Where [raw_response] comes from. When the answer carries a text as
    [raw_response], the service returned a response, the text is that
    response cleaned, and [json.loads] rejected it; when it carries null,
    the [JSONDecodeError] was raised by [Image.open] or by the service,
    before any response text existed. *)
Theorem raw_response_origin (now : string) (files : list (string * string))
    (raw : option string) :
  raw_response_of (analyze_request json_loads image image_open generate_content now files)
  = Some raw ->
  exists bytes,
    files_get "image" files = Some bytes
    /\ match raw with
       | Some t =>
           exists img text msg,
             image_open bytes = Returned img
             /\ generate_content img = Returned text
             /\ t = clean_response_text text
             /\ json_loads t = JSONDecodeError msg
       | None =>
           exists msg,
             image_open bytes = Failed (RaisedDecodeError msg)
             \/ exists img, image_open bytes = Returned img
                            /\ generate_content img = Failed (RaisedDecodeError msg)
       end.
Proof.
  unfold analyze_request.
  destruct (files_get "image" files) as [bytes |]; [| discriminate].
  intros H. exists bytes. split; [reflexivity |]. revert H.
  destruct (image_open bytes) as [img | r].
  2: { destruct r; cbn [early_answer raw_response_of]; [| discriminate].
       intros H. injection H as <-. eauto. }
  destruct (generate_content img) as [text | r] eqn:Eg.
  2: { destruct r; cbn [early_answer raw_response_of]; [| discriminate].
       intros H. injection H as <-. exists msg. right. exists img. auto. }
  unfold analyze_prescription.
  destruct (json_loads (clean_response_text text)) as [parsed | msg | e] eqn:El.
  - destruct (add_metadata now parsed); discriminate.
  - cbn [raw_response_of]. intros H. injection H as <-. exists img, text, msg. auto.
  - discriminate.
Qed.

End HandlerProperties.

(** * The further properties, run *)

Lemma two_poor_entries_shape :
  py_get_default "medications" (JList []) Cases.record_two_poor_entries
  = JList (map JDict Cases.two_poor_entries)
  /\ py_lt_float (py_get_default "confidence_score" (JInt 0) Cases.record_two_poor_entries)
       F64.lit_0_85 = Ok false.
Proof. split; reflexivity. Defined.

Lemma validation_messages_in_order_witness :
  expected_results Reference.py_str Cases.record_two_poor_entries Cases.two_poor_entries false
  = {| is_valid := false;
       warnings := ["Doctor name is missing";
                    "Dosage missing for unknown medication";
                    "Dosage missing for "];
       errors := ["Medication name missing"; "Medication name missing"] |}
  /\ validate_prescription Reference.py_str (JDict Cases.record_two_poor_entries)
     = Validated (expected_results Reference.py_str Cases.record_two_poor_entries
                    Cases.two_poor_entries false).
Proof.
  split; [reflexivity |].
  apply (validation_messages_in_order Reference.py_str Cases.record_two_poor_entries
           Cases.two_poor_entries false (proj1 two_poor_entries_shape)
           (proj2 two_poor_entries_shape)).
Defined.

Lemma validation_messages_bounded_witness :
  validate_prescription Reference.py_str (JDict Cases.record_two_poor_entries)
  = Validated (expected_results Reference.py_str Cases.record_two_poor_entries
                 Cases.two_poor_entries false)
  /\ List.length
       (errors (expected_results Reference.py_str Cases.record_two_poor_entries
                  Cases.two_poor_entries false))
     <= List.length Cases.two_poor_entries + 1
  /\ List.length
       (warnings (expected_results Reference.py_str Cases.record_two_poor_entries
                    Cases.two_poor_entries false))
     <= List.length Cases.two_poor_entries + 3.
Proof.
  split; [reflexivity |].
  apply (validation_messages_bounded Reference.py_str Cases.record_two_poor_entries
           Cases.two_poor_entries
           (expected_results Reference.py_str Cases.record_two_poor_entries
              Cases.two_poor_entries false)
           (proj1 two_poor_entries_shape)).
  reflexivity.
Defined.

Lemma scalar_medications_raise_witness :
  dict_get "medications" Cases.record_null_medications = Some JNull
  /\ is_scalar JNull = true
  /\ validate_prescription Reference.py_str (JDict Cases.record_null_medications)
     = ValidationFailed TypeError.
Proof.
  split; [reflexivity |]. split; [reflexivity |].
  apply (scalar_medications_raise Reference.py_str Cases.record_null_medications JNull);
    reflexivity.
Defined.

Lemma records_agree_on_validation_keys (k : string) :
  In k validation_keys ->
  dict_get k Cases.record_with_extras = dict_get k Cases.record_bare.
Proof. intros [<- | [<- | [<- | [<- | []]]]]; reflexivity. Defined.

Lemma validation_reads_four_keys_witness :
  dict_get "date" Cases.record_with_extras <> dict_get "date" Cases.record_bare
  /\ validate_prescription Reference.py_str (JDict Cases.record_with_extras)
     = validate_prescription Reference.py_str (JDict Cases.record_bare).
Proof.
  split; [discriminate |].
  apply (validation_reads_four_keys Reference.py_str Cases.record_with_extras
           Cases.record_bare records_agree_on_validation_keys).
Defined.

Lemma verdict_depends_on_medications_witness :
  dict_get "medications" Cases.record_named = dict_get "medications" Cases.record_unnamed
  /\ validate_prescription Reference.py_str (JDict Cases.record_named)
     = Validated {| is_valid := false;
                    warnings := ["Dosage missing for unknown medication";
                                 "Dosage missing for "];
                    errors := ["Medication name missing"; "Medication name missing"] |}
  /\ validate_prescription Reference.py_str (JDict Cases.record_unnamed)
     = Validated {| is_valid := false;
                    warnings := ["Patient name is missing"; "Doctor name is missing";
                                 "Dosage missing for unknown medication";
                                 "Dosage missing for ";
                                 "Low confidence score - manual review recommended"];
                    errors := ["Medication name missing"; "Medication name missing"] |}
  /\ false = false
  /\ ["Medication name missing"; "Medication name missing"]
     = ["Medication name missing"; "Medication name missing"].
Proof.
  split; [reflexivity |]. split; [reflexivity |]. split; [reflexivity |].
  apply (verdict_depends_on_medications Reference.py_str Cases.record_named
           Cases.record_unnamed
           {| is_valid := false;
              warnings := ["Dosage missing for unknown medication";
                           "Dosage missing for "];
              errors := ["Medication name missing"; "Medication name missing"] |}
           {| is_valid := false;
              warnings := ["Patient name is missing"; "Doctor name is missing";
                           "Dosage missing for unknown medication";
                           "Dosage missing for ";
                           "Low confidence score - manual review recommended"];
              errors := ["Medication name missing"; "Medication name missing"] |});
    reflexivity.
Defined.

Lemma integer_confidence_threshold_witness :
  dict_get "confidence_score" Cases.record_two_poor_entries = option_map JInt (Some 1%Z)
  /\ validate_prescription Reference.py_str (JDict Cases.record_two_poor_entries)
     = Validated (expected_results Reference.py_str Cases.record_two_poor_entries
                    Cases.two_poor_entries (1 <=? 0)%Z).
Proof.
  split; [reflexivity |].
  apply (integer_confidence_threshold Reference.py_str Cases.record_two_poor_entries
           Cases.two_poor_entries (Some 1%Z) (proj1 two_poor_entries_shape)).
  reflexivity.
Defined.


Lemma list_is_unfit : ~ fit_payload (JList [JInt 1; JInt 2]).
Proof. intros (d & H & _). discriminate. Defined.

Lemma unfit_payload_is_a_general_failure_witness :
  Reference.json_loads (clean_response_text Cases.list_text)
  = Loaded (JList [JInt 1; JInt 2])
  /\ analyze_prescription Reference.json_loads Reference.a_timestamp Cases.list_text
     = AnalysisFailed TypeError.
Proof.
  split; [reflexivity |].
  apply (unfit_payload_is_a_general_failure Reference.json_loads Reference.a_timestamp
           Cases.list_text (JList [JInt 1; JInt 2]));
    [reflexivity | exact list_is_unfit].
Defined.

Lemma analyzed_record_validates_like_payload_witness :
  analyze_prescription Reference.json_loads Reference.a_timestamp Reference.scenario_A_text
  = Analyzed (JDict (Reference.scenario_A_record Reference.a_timestamp))
  /\ exists parsed,
       Reference.json_loads (clean_response_text Reference.scenario_A_text) = Loaded parsed
       /\ validate_prescription Reference.py_str
            (JDict (Reference.scenario_A_record Reference.a_timestamp))
          = validate_prescription Reference.py_str parsed.
Proof.
  split; [reflexivity |].
  apply (analyzed_record_validates_like_payload Reference.json_loads Reference.py_str
           Reference.a_timestamp Reference.scenario_A_text
           (JDict (Reference.scenario_A_record Reference.a_timestamp))).
  reflexivity.
Defined.

Lemma raw_response_origin_witness :
  raw_response_of
    (analyze_request Reference.json_loads string Cases.open_any
       (Cases.answer_with Reference.scenario_C_text) Reference.a_timestamp Cases.upload)
  = Some (Some "not json at all")
  /\ exists bytes,
       files_get "image" Cases.upload = Some bytes
       /\ exists img text msg,
            Cases.open_any bytes = Returned img
            /\ Cases.answer_with Reference.scenario_C_text img = Returned text
            /\ "not json at all" = clean_response_text text
            /\ Reference.json_loads "not json at all" = JSONDecodeError msg.
Proof.
  split; [reflexivity |].
  apply (raw_response_origin Reference.json_loads string Cases.open_any
           (Cases.answer_with Reference.scenario_C_text) Reference.a_timestamp
           Cases.upload (Some "not json at all")).
  reflexivity.
Defined.

(** The handler on the cases: no [image] field, a service that is down, a
    service that raises a decode error, and a good answer. *)
Example analyze_request_cases :
  analyze_request Reference.json_loads string Cases.open_any
    (Cases.answer_with Reference.scenario_A_text) Reference.a_timestamp Cases.wrong_field
  = NoImageProvided
  /\ analyze_request Reference.json_loads string Cases.open_any Cases.service_down
       Reference.a_timestamp Cases.upload
     = EarlyFailure "503 Service Unavailable"
  /\ raw_response_of
       (analyze_request Reference.json_loads string Cases.open_any
          Cases.service_decode_error Reference.a_timestamp Cases.upload)
     = Some None
  /\ status_code
       (analyze_request Reference.json_loads string Cases.open_any
          (Cases.answer_with Reference.scenario_A_text) Reference.a_timestamp Cases.upload)
     = 200
  /\ clean_response_text Cases.padded_text = "{}"
  /\ analyze_prescription Reference.json_loads Reference.a_timestamp
       Cases.string_confidence_text
     = AnalysisFailed TypeError.
Proof. repeat split; reflexivity. Qed.

(** * The clock and the model's name *)

Section ProvenanceProperties.

Variable json_loads : string -> loads_result.

(** X16. The clock only sets [analyzed_at]: for every response text, two
    runs at different times give the same answer once [analyzed_at] is
    removed, the same record or the same failure. *)
Theorem clock_only_sets_analyzed_at (now now' text : string) :
  forget_timestamp (analyze_prescription json_loads now text)
  = forget_timestamp (analyze_prescription json_loads now' text).
Proof.
  unfold analyze_prescription.
  destruct (json_loads (clean_response_text text)) as [parsed | msg | e]; try reflexivity.
  destruct parsed; try reflexivity.
  rewrite !add_metadata_dict.
  destruct (accuracy_of _) as [acc |]; cbn [bind forget_timestamp]; [| reflexivity].
  now rewrite (with_metadata_modulo_timestamp now now').
Qed.

(** X17. Every record that [/analyze] produces names, as [model_version],
    the model that [/health] reports, whatever the payload held under that
    key. *)
Theorem record_names_the_health_model (now now' text : string) (r : dict) :
  analyze_prescription json_loads now text = Analyzed (JDict r) ->
  dict_get "model_version" r = dict_get "model" (health_check now').
Proof.
  unfold analyze_prescription.
  destruct (json_loads (clean_response_text text)) as [parsed | |]; try discriminate.
  destruct (add_metadata now parsed) as [res |] eqn:E; [| discriminate].
  intros H. injection H as ->.
  destruct (add_metadata_needs_dict now parsed (JDict r) E) as [d ->].
  rewrite add_metadata_dict in E.
  destruct (accuracy_of _) as [acc |]; cbn [bind] in E; [| discriminate].
  injection E as <-. unfold with_metadata.
  rewrite dict_get_set_other by discriminate. now rewrite dict_get_set_same.
Qed.

End ProvenanceProperties.

Lemma record_names_the_health_model_witness :
  analyze_prescription Reference.json_loads Reference.a_timestamp Reference.scenario_A_text
  = Analyzed (JDict (Reference.scenario_A_record Reference.a_timestamp))
  /\ dict_get "model_version" (Reference.scenario_A_record Reference.a_timestamp)
     = dict_get "model" (health_check Reference.another_timestamp).
Proof.
  split; [reflexivity |].
  apply (record_names_the_health_model Reference.json_loads Reference.a_timestamp
           Reference.another_timestamp Reference.scenario_A_text
           (Reference.scenario_A_record Reference.a_timestamp)).
  reflexivity.
Defined.
